(** * ETL data-integrity ledger: hash chain and canonical CSV

    A shallow embedding of [Blockchain/blockchain.py] (classes [Block] and
    [ETLBlockchain]) and of [deterministic_csv_bytes] from [ETL.py], with the
    library functions they call ([hashlib.sha256], [json.dumps], [repr] of a
    float, the [csv] writer and the pandas frame operations) written out as
    executable functions. *)

From Stdlib Require Import ZArith List String Ascii Bool Lia DecimalString.
From Stdlib Require Import Permutation Sorted.
From Stdlib Require Import SpecFloat.
Import ListNotations.

Local Open Scope string_scope.
Local Open Scope list_scope.
Local Open Scope Z_scope.

(** ** hashlib.sha256 (FIPS 180-4), on 32-bit words held in [Z] *)

Module SHA256.

Definition w32 (x : Z) : Z := Z.land x 4294967295.

Definition rotr (n x : Z) : Z :=
  Z.lor (Z.shiftr x n) (w32 (Z.shiftl x (32 - n))).

Definition Ch (x y z : Z) : Z :=
  Z.lxor (Z.land x y) (Z.land (Z.lxor x 4294967295) z).

Definition Maj (x y z : Z) : Z :=
  Z.lxor (Z.lxor (Z.land x y) (Z.land x z)) (Z.land y z).

Definition Sigma0 (x : Z) : Z := Z.lxor (Z.lxor (rotr 2 x) (rotr 13 x)) (rotr 22 x).
Definition Sigma1 (x : Z) : Z := Z.lxor (Z.lxor (rotr 6 x) (rotr 11 x)) (rotr 25 x).
Definition sigma0 (x : Z) : Z := Z.lxor (Z.lxor (rotr 7 x) (rotr 18 x)) (Z.shiftr x 3).
Definition sigma1 (x : Z) : Z := Z.lxor (Z.lxor (rotr 17 x) (rotr 19 x)) (Z.shiftr x 10).

(** The round constants and the initial state are the first 32 bits of the
    fractional parts of the cube roots of the first 64 primes and of the
    square roots of the first 8. *)
Fixpoint has_divisor (cands : list Z) (n : Z) : bool :=
  match cands with
  | [] => false
  | d :: rest => (n mod d =? 0) || has_divisor rest n
  end.

Fixpoint primes_from (fuel : nat) (count : nat) (n : Z) (found : list Z) : list Z :=
  match fuel, count with
  | O, _ | _, O => rev found
  | S fuel', S count' =>
      if has_divisor found n then primes_from fuel' count (n + 1) found
      else primes_from fuel' count' (n + 1) (n :: found)
  end.

Definition primes (count : nat) : list Z := primes_from 400 count 2 [].

(** The largest [r < 2^bits] with [pw r <= n], one bit at a time. *)
Fixpoint iroot (bits : nat) (pw : Z -> Z) (n r : Z) : Z :=
  match bits with
  | O => r
  | S b =>
      let c := r + 2 ^ Z.of_nat b in
      if pw c <=? n then iroot b pw n c else iroot b pw n r
  end.

Definition K : list Z :=
  Eval vm_compute in
    map (fun p => w32 (iroot 36 (fun c => c * c * c) (p * 2 ^ 96) 0)) (primes 64).

Definition H0 : list Z :=
  Eval vm_compute in
    map (fun p => w32 (iroot 36 (fun c => c * c) (p * 2 ^ 64) 0)) (primes 8).

(** The message is padded with a one bit, zeros up to 56 mod 64 bytes, and
    the bit length as a 64-bit big-endian integer. *)
Definition be_bytes (n : nat) (x : Z) : list Z :=
  map (fun i => Z.shiftr x (8 * Z.of_nat i) mod 256) (rev (seq 0 n)).

Definition pad (msg : list Z) : list Z :=
  let len := Z.of_nat (List.length msg) in
  let zeros := Z.to_nat ((55 - len) mod 64) in
  msg ++ 128 :: repeat 0 zeros ++ be_bytes 8 (8 * len).

Fixpoint words (bs : list Z) : list Z :=
  match bs with
  | a :: b :: c :: d :: rest =>
      (Z.shiftl a 24 + Z.shiftl b 16 + Z.shiftl c 8 + d) :: words rest
  | _ => []
  end.

Fixpoint chunks (n : nat) (ws : list Z) : list (list Z) :=
  match n with
  | O => []
  | S n' =>
      match ws with
      | [] => []
      | _ => firstn 16 ws :: chunks n' (skipn 16 ws)
      end
  end.

(** The message schedule: 48 further words from a sliding window of 16. *)
Fixpoint schedule (n : nat) (win : list Z) : list Z :=
  match n with
  | O => []
  | S n' =>
      let w := w32 (sigma1 (nth 14 win 0) + nth 9 win 0
                    + sigma0 (nth 1 win 0) + nth 0 win 0) in
      w :: schedule n' (tl win ++ [w])
  end.

Record regs := Regs { ra : Z; rb : Z; rc : Z; rd : Z; re : Z; rf : Z; rg : Z; rh : Z }.

Definition round (s : regs) (kw : Z * Z) : regs :=
  let '(Regs a b c d e f g h) := s in
  let t1 := h + Sigma1 e + Ch e f g + fst kw + snd kw in
  let t2 := Sigma0 a + Maj a b c in
  Regs (w32 (t1 + t2)) a b c (w32 (d + t1)) e f g.

Definition compress (hs : list Z) (block : list Z) : list Z :=
  let ws := block ++ schedule 48 block in
  let s0 := Regs (nth 0 hs 0) (nth 1 hs 0) (nth 2 hs 0) (nth 3 hs 0)
                 (nth 4 hs 0) (nth 5 hs 0) (nth 6 hs 0) (nth 7 hs 0) in
  let '(Regs a b c d e f g h) := fold_left round (combine K ws) s0 in
  map (fun p => w32 (fst p + snd p)) (combine hs [a; b; c; d; e; f; g; h]).

Definition digest_words (msg : list Z) : list Z :=
  let ws := words (pad msg) in
  fold_left compress (chunks (List.length ws) ws) H0.

Definition hex_digit (d : Z) : ascii :=
  ascii_of_N (Z.to_N (if d <? 10 then 48 + d else 87 + d)).

(** Eight lowercase hexadecimal digits of a 32-bit word. *)
Definition hex_word (w : Z) : string :=
  string_of_list_ascii
    (map (fun i => hex_digit (Z.shiftr w (4 * Z.of_nat i) mod 16)) (rev (seq 0 8))).

Definition bytes_of_string (s : string) : list Z :=
  map (fun c => Z.of_N (N_of_ascii c)) (list_ascii_of_string s).

(** [hashlib.sha256(b).hexdigest()] *)
Definition hexdigest (s : string) : string :=
  String.concat EmptyString (map hex_word (digest_words (bytes_of_string s))).

End SHA256.

(** ** Python values: [str], [int], [float] *)

Module Py.

(** A [str] is held as a [string] whose characters stand for the code points
    0..255; [x == y] on [str] is [String.eqb]. *)

(** [str(n)] for an [int]. *)
Definition str_int (z : Z) : string := NilZero.string_of_int (Z.to_int z).

(** [c * n]: a one-character string repeated; empty when [n <= 0]. *)
Definition str_repeat (c : ascii) (n : Z) : string :=
  string_of_list_ascii (repeat c (Z.to_nat n)).

(** [s[:stop]]: the first [stop] characters when [stop >= 0] (all of [s] when
    it is shorter), and [s] without its last [-stop] characters otherwise. *)
Definition slice_to (s : string) (stop : Z) : string :=
  let len := Z.of_nat (String.length s) in
  let stop' := if stop <? 0 then Z.max 0 (len + stop) else Z.min stop len in
  substring 0 (Z.to_nat stop') s.

(** [s.encode("utf-8")] for code points below 256: one byte up to 127,
    two bytes above. *)
Definition utf8_char (c : ascii) : list ascii :=
  let n := Z.of_N (N_of_ascii c) in
  if n <? 128 then [c]
  else [ascii_of_N (Z.to_N (192 + Z.shiftr n 6));
        ascii_of_N (Z.to_N (128 + Z.land n 63))].

Definition encode (s : string) : string :=
  string_of_list_ascii (flat_map utf8_char (list_ascii_of_string s)).

(** A stable sort, as [sorted] and a mergesort are: an element goes in
    front of the first one that is not smaller, so elements that compare
    equal keep the order they came in. *)
Section StableSort.
Context {A : Type} (ltb : A -> A -> bool).

Fixpoint insert (x : A) (l : list A) : list A :=
  match l with
  | [] => [x]
  | y :: l' => if ltb y x then y :: insert x l' else x :: l
  end.

Fixpoint stable_sort (l : list A) : list A :=
  match l with
  | [] => []
  | x :: l' => insert x (stable_sort l')
  end.
End StableSort.

(** A [float] is an IEEE binary64 value, [(-1)^s * m * 2^e]. *)
Definition float := spec_float.

(** [bool(x)] for a float: zero of either sign is falsy, everything else,
    NaN included, is truthy. *)
Definition float_truthy (x : float) : bool :=
  match x with
  | S754_zero _ => false
  | _ => true
  end.

(** [x == y] on floats (IEEE: the two zeros are equal, NaN equals nothing). *)
Definition float_eqb (x y : float) : bool := SFeqb x y.

(** *** [repr(x)]: the shortest decimal string that reads back as [x]

    For [x = m * 2^e > 0] the doubles next to [x] bound the interval of reals
    that round to [x]; everything is scaled to integers over a common
    denominator [D]: [x = V / D] and the interval is [LO / D, HI / D]. *)

Definition repr_interval (m : positive) (e : Z) : Z * Z * Z * Z :=
  let boundary := Pos.eqb m 4503599627370496 && (-1074 <? e) in
  let lo_gap := if boundary then 1 else 2 in
  let v := 4 * Zpos m in
  if 2 <=? e then
    let sc := 2 ^ (e - 2) in (v * sc, (v - lo_gap) * sc, (v + 2) * sc, 1)
  else (v, v - lo_gap, v + 2, 2 ^ (2 - e)).

(** The decimal point position [k]: [10^(k-1) <= V/D < 10^k]. *)
Definition below_pow10 (V D k : Z) : bool :=
  if 0 <=? k then V <? 10 ^ k * D else V * 10 ^ (- k) <? D.

Fixpoint decpt_from (fuel : nat) (V D k : Z) : Z :=
  match fuel with
  | O => k
  | S fuel' => if below_pow10 V D k then k else decpt_from fuel' V D (k + 1)
  end.

Definition decpt (V D : Z) : Z :=
  let b := Z.log2 V - Z.log2 D in
  decpt_from 8 V D ((b - 1) * 30103 / 100000 - 1).

(** The [p]-digit decimals next to [x]: [n] and [n + 1] times [10^(k-p)];
    the one inside the interval and nearest to [x], if any. *)
Definition candidate (even : bool) (V LO HI D k : Z) (p : Z) : option Z :=
  let q := k - p in
  let P := 10 ^ (Z.abs q) in
  let '(xv, xl, xh, unit) :=
    if 0 <=? q then (V, LO, HI, P * D) else (V * P, LO * P, HI * P, D) in
  let inside n :=
    if even then (xl <=? n * unit) && (n * unit <=? xh)
    else (xl <? n * unit) && (n * unit <? xh) in
  let n0 := xv / unit in
  let n1 := n0 + 1 in
  let d0 := xv - n0 * unit in
  let d1 := n1 * unit - xv in
  match inside n0, inside n1 with
  | true, true =>
      if d0 <? d1 then Some n0
      else if d1 <? d0 then Some n1
      else Some (if Z.even n0 then n0 else n1)
  | true, false => Some n0
  | false, true => Some n1
  | false, false => None
  end.

Fixpoint shortest (fuel : nat) (even : bool) (V LO HI D k p : Z) : Z * Z :=
  match fuel with
  | O => (0, p)
  | S fuel' =>
      match candidate even V LO HI D k p with
      | Some n => (n, p)
      | None => shortest fuel' even V LO HI D k (p + 1)
      end
  end.

Fixpoint strip_zeros (fuel : nat) (n : Z) : Z :=
  match fuel with
  | O => n
  | S fuel' => if (n mod 10 =? 0) && (0 <? n) then strip_zeros fuel' (n / 10) else n
  end.

(** The digits of [x] and the position of its decimal point:
    [x = 0.d1 d2 ... dn * 10^pt]. *)
Definition digits_of (m : positive) (e : Z) : string * Z :=
  let '(V, LO, HI, D) := repr_interval m e in
  let k := decpt V D in
  let '(n, p) := shortest 17 (Z.even (Zpos m)) V LO HI D k 1 in
  let pt := if n =? 10 ^ p then k + 1 else k in
  (str_int (strip_zeros 18 n), pt).

Definition zeros (n : Z) : string := str_repeat "0" n.

(** The layout of [repr]: exponent notation when the decimal point falls
    outside [-4 < pt <= 16], [.0] added to an integer. *)
Definition layout (ds : string) (pt : Z) : string :=
  let nd := Z.of_nat (String.length ds) in
  if (pt <=? -4) || (16 <? pt) then
    let ex := pt - 1 in
    let mant :=
      if nd =? 1 then ds
      else append (substring 0 1 ds) (append "." (substring 1 (Z.to_nat (nd - 1)) ds)) in
    let exs := str_int (Z.abs ex) in
    let exs := if Z.abs ex <? 10 then append "0" exs else exs in
    append mant (append (if ex <? 0 then "e-" else "e+") exs)
  else if pt <=? 0 then append "0." (append (zeros (- pt)) ds)
  else if nd <=? pt then append ds (append (zeros (pt - nd)) ".0")
  else append (substring 0 (Z.to_nat pt) ds)
              (append "." (substring (Z.to_nat pt) (Z.to_nat (nd - pt)) ds)).

Definition float_repr (x : float) : string :=
  match x with
  | S754_zero s => if s then "-0.0" else "0.0"
  | S754_infinity s => if s then "-inf" else "inf"
  | S754_nan => "nan"
  | S754_finite s m e =>
      let '(ds, pt) := digits_of m e in
      append (if s then "-" else EmptyString) (layout ds pt)
  end.

End Py.

(** ** json.dumps(obj, sort_keys=True) *)

Module Json.

(** JSON-representable Python values; a [dict] is kept as the list of its
    items in insertion order (its keys are [str] and pairwise distinct). *)
#[local] Unset Elimination Schemes.
Inductive json :=
| JNull
| JBool (b : bool)
| JInt (z : Z)
| JFloat (x : Py.float)
| JStr (s : string)
| JList (l : list json)
| JDict (items : list (string * json)).
#[local] Set Elimination Schemes.

(** [bool(v)] *)
Definition truthy (v : json) : bool :=
  match v with
  | JNull => false
  | JBool b => b
  | JInt z => negb (z =? 0)
  | JFloat x => Py.float_truthy x
  | JStr s => negb (String.eqb s EmptyString)
  | JList l => match l with [] => false | _ => true end
  | JDict items => match items with [] => false | _ => true end
  end.

(** [a or b] *)
Definition py_or (a b : json) : json := if truthy a then a else b.

Definition quote : ascii := "034"%char.
Definition backslash : ascii := "092"%char.

Definition escape2 (c : ascii) : string := String backslash (String c EmptyString).

(** One character under [ensure_ascii]: short escapes, printable ASCII as
    it is, anything else as [\u00xx]. *)
Definition escape_char (c : ascii) : string :=
  let n := Z.of_N (N_of_ascii c) in
  if n =? 34 then escape2 quote
  else if n =? 92 then escape2 backslash
  else if n =? 10 then escape2 "n"
  else if n =? 13 then escape2 "r"
  else if n =? 9 then escape2 "t"
  else if n =? 12 then escape2 "f"
  else if n =? 8 then escape2 "b"
  else if (32 <=? n) && (n <=? 126) then String c EmptyString
  else String backslash
         (String "u" (String "0" (String "0"
            (String (SHA256.hex_digit (n / 16))
               (String (SHA256.hex_digit (n mod 16)) EmptyString))))).

Definition encode_string (s : string) : string :=
  String quote
    (append (String.concat EmptyString (map escape_char (list_ascii_of_string s)))
            (String quote EmptyString)).

Definition float_json (x : Py.float) : string :=
  match x with
  | S754_nan => "NaN"
  | S754_infinity false => "Infinity"
  | S754_infinity true => "-Infinity"
  | _ => Py.float_repr x
  end.

(** [sorted(dct.items())]: items in increasing key order. *)
Fixpoint insert_item (it : string * string) (l : list (string * string)) :=
  match l with
  | [] => [it]
  | it' :: l' =>
      if String.ltb (fst it) (fst it') then it :: l else it' :: insert_item it l'
  end.

Definition sort_items (l : list (string * string)) : list (string * string) :=
  fold_left (fun acc it => insert_item it acc) l [].

Definition render_item (it : string * string) : string :=
  append (encode_string (fst it)) (append ": " (snd it)).

Fixpoint dumps (v : json) : string :=
  match v with
  | JNull => "null"
  | JBool b => if b then "true" else "false"
  | JInt z => Py.str_int z
  | JFloat x => float_json x
  | JStr s => encode_string s
  | JList l => append "[" (append (String.concat ", " (map dumps l)) "]")
  | JDict items =>
      let rendered := map (fun it => (fst it, dumps (snd it))) items in
      append "{" (append (String.concat ", " (map render_item (sort_items rendered))) "}")
  end.

(** [dct[key]] *)
Fixpoint lookup (key : string) (items : list (string * json)) : option json :=
  match items with
  | [] => None
  | (k, v) :: rest => if String.eqb k key then Some v else lookup key rest
  end.

End Json.

Import Json.

(** ** class Block *)

Module Block.

Record t := mk {
  index : Z;
  data : json;
  previous_hash : string;
  timestamp : Py.float;
  nonce : Z;
  hash : string
}.

Definition set_nonce (n : Z) (b : t) : t :=
  mk (index b) (data b) (previous_hash b) (timestamp b) n (hash b).

Definition set_hash (h : string) (b : t) : t :=
  mk (index b) (data b) (previous_hash b) (timestamp b) (nonce b) h.

(** The dict that [calculate_hash] serialises. *)
Definition block_string (b : t) : string :=
  dumps (JDict [ ("index", JInt (index b));
                 ("data", data b);
                 ("previous_hash", JStr (previous_hash b));
                 ("timestamp", JFloat (timestamp b));
                 ("nonce", JInt (nonce b)) ]).

Definition calculate_hash (b : t) : string :=
  SHA256.hexdigest (Py.encode (block_string b)).

(** [Block(index, data, previous_hash, timestamp)]; [now] is what
    [time.time()] returns, used when [timestamp] is [None] or falsy. *)
Definition init (index : Z) (data : json) (previous_hash : string)
    (timestamp : option Py.float) (now : Py.float) : t :=
  let ts := match timestamp with
            | Some x => if Py.float_truthy x then x else now
            | None => now
            end in
  let b := mk index data previous_hash ts 0 EmptyString in
  set_hash (calculate_hash b) b.

Definition target (difficulty : Z) : string := Py.str_repeat "0" difficulty.

(** The negation of the loop condition [self.hash[:difficulty] != target]. *)
Definition sealed (difficulty : Z) (b : t) : bool :=
  String.eqb (Py.slice_to (hash b) difficulty) (target difficulty).

(** The loop body: [self.nonce += 1; self.hash = self.calculate_hash()]. *)
Definition bump (b : t) : t :=
  let b' := set_nonce (nonce b + 1) b in
  set_hash (calculate_hash b') b'.

(** [mine_block]: the while loop, run for at most [fuel] iterations;
    [None] when the loop is still running after them. *)
Fixpoint mine_block (fuel : nat) (difficulty : Z) (b : t) : option t :=
  if sealed difficulty b then Some b
  else match fuel with
       | O => None
       | S fuel' => mine_block fuel' difficulty (bump b)
       end.

Definition to_dict (b : t) : json :=
  JDict [ ("index", JInt (index b));
          ("data", data b);
          ("previous_hash", JStr (previous_hash b));
          ("timestamp", JFloat (timestamp b));
          ("nonce", JInt (nonce b));
          ("hash", JStr (hash b)) ].

End Block.

(** ** class ETLBlockchain *)

Module ETLBlockchain.

Record t := mk {
  chain : list Block.t;
  difficulty : Z
}.

Definition genesis_data (now_utc : string) : json :=
  JDict [ ("type", JStr "genesis");
          ("message", JStr "ETL Data Integrity Blockchain Genesis Block");
          ("timestamp_utc", JStr now_utc) ].

(** [now_utc] is [datetime.now(timezone.utc).isoformat()] and [now] is
    [time.time()], both read while the block is built. *)
Definition create_genesis_block (fuel : nat) (self : t)
    (now_utc : string) (now : Py.float) : option t :=
  let genesis_block := Block.init 0 (genesis_data now_utc) "0" None now in
  match Block.mine_block fuel (difficulty self) genesis_block with
  | Some b => Some (mk (chain self ++ [b]) (difficulty self))
  | None => None
  end.

(** [ETLBlockchain()] *)
Definition init (fuel : nat) (now_utc : string) (now : Py.float) : option t :=
  create_genesis_block fuel (mk [] 4) now_utc now.

(** [self.chain[-1]]; [None] is the [IndexError] of an empty list. *)
Definition get_latest_block (self : t) : option Block.t :=
  match chain self with
  | [] => None
  | b :: rest => Some (last rest b)
  end.

Definition etl_data (s1_hash s2_hash dataset_hash : string) (etl_metadata : json)
    (now_utc : string) : json :=
  JDict [ ("type", JStr "etl_data");
          ("extraction_hashes", JDict [ ("s1.csv", JStr s1_hash);
                                        ("s2.csv", JStr s2_hash) ]);
          ("deterministic_dataset_sha256", JStr dataset_hash);
          ("timestamp_utc", JStr now_utc);
          ("etl_metadata", py_or etl_metadata (JDict [])) ].

(** Returns the chain after the append together with the new block. *)
Definition add_etl_data_block (fuel : nat) (self : t)
    (s1_hash s2_hash dataset_hash : string) (etl_metadata : json)
    (now_utc : string) (now : Py.float) : option (t * Block.t) :=
  let data := etl_data s1_hash s2_hash dataset_hash etl_metadata now_utc in
  match get_latest_block self with
  | None => None
  | Some latest =>
      let new_block :=
        Block.init (Z.of_nat (List.length (chain self))) data (Block.hash latest) None now in
      match Block.mine_block fuel (difficulty self) new_block with
      | Some b => Some (mk (chain self ++ [b]) (difficulty self), b)
      | None => None
      end
  end.

(** One iteration of the loop of [is_chain_valid]: the line it prints when
    it returns [False] at index [i], [None] when it goes on. *)
Definition check_block (c : list Block.t) (i : nat) : option string :=
  match nth_error c i, nth_error c (i - 1) with
  | Some current_block, Some previous_block =>
      if negb (String.eqb (Block.hash current_block) (Block.calculate_hash current_block))
      then Some (append "Invalid hash at block " (Py.str_int (Z.of_nat i)))
      else if negb (String.eqb (Block.previous_hash current_block) (Block.hash previous_block))
      then Some (append "Invalid previous hash at block " (Py.str_int (Z.of_nat i)))
      else None
  | _, _ => None
  end.

Fixpoint scan (c : list Block.t) (indices : list nat) : bool * list string :=
  match indices with
  | [] => (true, [])
  | i :: rest =>
      match check_block c i with
      | Some line => (false, [line])
      | None => scan c rest
      end
  end.

(** [is_chain_valid]: the returned [bool] and the lines printed;
    [for i in range(1, len(self.chain))]. *)
Definition is_chain_valid (self : t) : bool * list string :=
  scan (chain self) (seq 1 (List.length (chain self) - 1)).

(** The document that [save_blockchain] hands to [json.dumps];
    [now_utc] is the time of the save. *)
Definition save_blockchain (self : t) (now_utc : string) : json :=
  JDict [ ("blockchain", JList (map Block.to_dict (chain self)));
          ("metadata", JDict [ ("total_blocks", JInt (Z.of_nat (List.length (chain self))));
                               ("difficulty", JInt (difficulty self));
                               ("created_at", JStr now_utc) ]) ].

(** One iteration of the loop of [load_blockchain]; [None] is a [KeyError],
    or a field that does not have the type of the [Block] attribute as
    [save_blockchain] writes it (an integer timestamp, say, which the code
    would load as it is): such documents are outside the model. *)
Definition load_block (block_data : json) (now : Py.float) : option Block.t :=
  match block_data with
  | JDict items =>
      match lookup "index" items, lookup "data" items, lookup "previous_hash" items,
            lookup "timestamp" items, lookup "nonce" items, lookup "hash" items with
      | Some (JInt i), Some d, Some (JStr p), Some (JFloat ts), Some (JInt n), Some (JStr h) =>
          let block := Block.init i d p (Some ts) now in
          Some (Block.set_hash h (Block.set_nonce n block))
      | _, _, _, _, _, _ => None
      end
  | _ => None
  end.

Fixpoint load_blocks (l : list json) (k : nat) (clock : nat -> Py.float)
  : option (list Block.t) :=
  match l with
  | [] => Some []
  | block_data :: rest =>
      match load_block block_data (clock k), load_blocks rest (S k) clock with
      | Some b, Some bs => Some (b :: bs)
      | _, _ => None
      end
  end.

(** [load_blockchain] on the document that [json.loads] returns; [clock k]
    is what [time.time()] returns while block [k] is rebuilt. The chain is
    replaced, [difficulty] is not read back. *)
Definition load_blockchain (self : t) (doc : json) (clock : nat -> Py.float) : option t :=
  match doc with
  | JDict items =>
      match lookup "blockchain" items with
      | Some (JList l) =>
          match load_blocks l 0 clock with
          | Some bs => Some (mk bs (difficulty self))
          | None => None
          end
      | _ => None
      end
  | _ => None
  end.

End ETLBlockchain.


(** ** ETL.py: the canonical CSV of a data frame *)

Module ETL.

(** [sha256_bytes] *)
Definition sha256_bytes (b : string) : string := SHA256.hexdigest b.

(** A UTC timestamp of a [datetime64[ns, UTC]] column. *)
Record datetime := mkdt {
  year : Z; month : Z; day : Z; hour : Z; minute : Z; second : Z; nanosecond : Z
}.

(** The values a pandas column holds. [NA] is the missing value of every
    dtype; a float NaN is missing too. *)
Inductive cell :=
| NA
| CBool (b : bool)
| CInt (z : Z)
| CFloat (x : Py.float)
| CStr (s : string)
| CTime (t : datetime).

(** A frame, row by row; the row index is not kept, as [to_csv] is called
    with [index=False]. Every row has one cell per column and the cells of
    a column have one dtype. *)
Record DataFrame := mkdf {
  columns : list string;
  rows : list (list cell)
}.

Definition is_na (c : cell) : bool :=
  match c with
  | NA | CFloat S754_nan => true
  | _ => false
  end.

(** *** sorted(df.columns) and df.reindex(..., axis=1) *)

(** [sorted(l)], by code points. *)
Definition sorted (l : list string) : list string := Py.stable_sort String.ltb l.

Fixpoint has_duplicates (l : list string) : bool :=
  match l with
  | [] => false
  | x :: l' => existsb (String.eqb x) l' || has_duplicates l'
  end.

Fixpoint position (x : string) (l : list string) : nat :=
  match l with
  | [] => O
  | y :: l' => if String.eqb x y then O else S (position x l')
  end.

(** The frame with its columns in the order [labels]; pandas refuses
    ([ValueError]) when a label occurs twice among the columns. *)
Definition reindex_columns (df : DataFrame) (labels : list string) : option DataFrame :=
  if has_duplicates (columns df) then None
  else
    let picks := map (fun x => position x (columns df)) labels in
    Some (mkdf labels (map (fun r => map (fun j => nth j r NA) picks) (rows df))).

(** *** sort_values(by=all columns, kind="mergesort", na_position="first") *)

Definition kind_rank (c : cell) : Z :=
  match c with
  | NA => 0
  | CBool _ => 1
  | CInt _ => 2
  | CFloat _ => 3
  | CStr _ => 4
  | CTime _ => 5
  end.

Definition time_key (t : datetime) : list Z :=
  [year t; month t; day t; hour t; minute t; second t; nanosecond t].

Fixpoint lex_compare (a b : list Z) : comparison :=
  match a, b with
  | [], [] => Eq
  | [], _ :: _ => Lt
  | _ :: _, [] => Gt
  | x :: a', y :: b' =>
      match Z.compare x y with
      | Eq => lex_compare a' b'
      | o => o
      end
  end.

(** The order of the values of one column: missing values first, then the
    order of the dtype (the two float zeros are equal). In the frames the
    model stands for ([typed], below) cells of two dtypes do not meet in a
    column; the last case, which orders them by dtype, is there to make
    the function total and says nothing about columns of dtype object. *)
Definition cell_compare (a b : cell) : comparison :=
  match is_na a, is_na b with
  | true, true => Eq
  | true, false => Lt
  | false, true => Gt
  | false, false =>
      match a, b with
      | CBool x, CBool y => Bool.compare x y
      | CInt x, CInt y => Z.compare x y
      | CFloat x, CFloat y =>
          match SFcompare x y with
          | Some o => o
          | None => Eq
          end
      | CStr x, CStr y => String.compare x y
      | CTime x, CTime y => lex_compare (time_key x) (time_key y)
      | _, _ => Z.compare (kind_rank a) (kind_rank b)
      end
  end.

(** Rows are compared column by column from the left. *)
Fixpoint row_compare (r1 r2 : list cell) : comparison :=
  match r1, r2 with
  | [], [] => Eq
  | [], _ :: _ => Lt
  | _ :: _, [] => Gt
  | a :: r1', b :: r2' =>
      match cell_compare a b with
      | Eq => row_compare r1' r2'
      | o => o
      end
  end.

Definition row_ltb (r1 r2 : list cell) : bool :=
  match row_compare r1 r2 with
  | Lt => true
  | _ => false
  end.

Definition sort_rows (l : list (list cell)) : list (list cell) :=
  Py.stable_sort row_ltb l.

Definition sort_values (df : DataFrame) : DataFrame :=
  mkdf (columns df) (sort_rows (rows df)).

(** *** convert_dtypes()

    What changes the text of a cell: a float column whose present values
    are all whole numbers in the int64 range becomes an integer column. *)
Definition whole (x : Py.float) : option Z :=
  match x with
  | S754_zero _ => Some 0
  | S754_finite s m e =>
      let v :=
        if 0 <=? e then Some (Zpos m * 2 ^ e)
        else if Zpos m mod 2 ^ (- e) =? 0 then Some (Zpos m / 2 ^ (- e))
        else None in
      match v with
      | Some a =>
          let z := if s then - a else a in
          if (- 2 ^ 63 <=? z) && (z <? 2 ^ 63) then Some z else None
      | None => None
      end
  | _ => None
  end.

Definition whole_or_other (c : cell) : bool :=
  match c with
  | CFloat S754_nan => true
  | CFloat x => match whole x with Some _ => true | None => false end
  | _ => true
  end.

Definition to_integer (c : cell) : cell :=
  match c with
  | CFloat x => match whole x with Some z => CInt z | None => NA end
  | _ => c
  end.

Definition column_values (j : nat) (rs : list (list cell)) : list cell :=
  map (fun r => nth j r NA) rs.

Definition convert_row (flags : list bool) (r : list cell) : list cell :=
  map (fun p : bool * cell => if fst p then to_integer (snd p) else snd p)
      (combine flags r).

Definition convert_dtypes (df : DataFrame) : DataFrame :=
  let n := List.length (columns df) in
  let flags := map (fun j => forallb whole_or_other (column_values j (rows df))) (seq 0 n) in
  mkdf (columns df) (map (convert_row flags) (rows df)).

(** *** to_csv(index=False, lineterminator="\n", na_rep="",
        quoting=csv.QUOTE_MINIMAL, date_format="%Y-%m-%dT%H:%M:%S%z") *)

Definition pad (width : nat) (z : Z) : string :=
  let s := Py.str_int z in
  append (Py.str_repeat "0" (Z.of_nat width - Z.of_nat (String.length s))) s.

(** [%Y] is the year as the C library writes it, without padding. *)
Definition strftime (t : datetime) : string :=
  String.concat EmptyString
    [ Py.str_int (year t); "-"; pad 2 (month t); "-"; pad 2 (day t); "T";
      pad 2 (hour t); ":"; pad 2 (minute t); ":"; pad 2 (second t); "+0000" ].

Definition cell_text (c : cell) : string :=
  match c with
  | NA => EmptyString
  | CBool b => if b then "True" else "False"
  | CInt z => Py.str_int z
  | CFloat S754_nan => EmptyString
  | CFloat x => Py.float_repr x
  | CStr s => s
  | CTime t => strftime t
  end.

Definition newline : ascii := "010"%char.

(** QUOTE_MINIMAL: a field is quoted when it holds the delimiter, the
    quote character or the line terminator; quotes inside are doubled. *)
Definition special (c : ascii) : bool :=
  Ascii.eqb c "," || Ascii.eqb c Json.quote || Ascii.eqb c newline.

Definition double_quotes (s : string) : string :=
  string_of_list_ascii
    (flat_map (fun c => if Ascii.eqb c Json.quote then [c; c] else [c])
              (list_ascii_of_string s)).

Definition csv_field (s : string) : string :=
  if existsb special (list_ascii_of_string s)
  then String Json.quote (append (double_quotes s) (String Json.quote EmptyString))
  else s.

(** [writer.writerow(fields)]: a row of one empty field is written as a
    pair of quotes, a row of no field as the bare line terminator. *)
Definition csv_row (fields : list string) : string :=
  let body :=
    match fields with
    | [f] => if String.eqb f EmptyString
             then String Json.quote (String Json.quote EmptyString)
             else csv_field f
    | _ => String.concat "," (map csv_field fields)
    end in
  append body (String newline EmptyString).

Definition to_csv (df : DataFrame) : string :=
  String.concat EmptyString
    (csv_row (columns df) :: map (fun r => csv_row (map cell_text r)) (rows df)).

(** *** The frames the model stands for

    A column of a frame has one dtype. The model covers the dtypes bool,
    integer, float64, string and datetime64[ns, UTC], with or without
    missing values: the present cells of a column are of one kind, every
    row has a cell for every column, and a float cell is a binary64 value.
    A column of dtype object that holds values of several kinds (pandas
    then compares them as Python does, or raises [TypeError]) is outside
    the model. *)
Definition same_kind (a b : cell) : bool :=
  is_na a || is_na b || (kind_rank a =? kind_rank b).

Definition one_dtype (cells : list cell) : bool :=
  forallb (fun a => forallb (same_kind a) cells) cells.

Definition binary64 (c : cell) : bool :=
  match c with
  | CFloat (S754_finite _ m e) => SpecFloat.bounded 53 1024 m e
  | _ => true
  end.

Definition typed (df : DataFrame) : bool :=
  let n := List.length (columns df) in
  forallb (fun r => (List.length r =? n)%nat && forallb binary64 r) (rows df)
  && forallb (fun j => one_dtype (column_values j (rows df))) (seq 0 n).

(** *** deterministic_csv_bytes *)

Definition deterministic_csv_bytes (df : DataFrame) : option string :=
  match reindex_columns df (sorted (columns df)) with
  | None => None
  | Some df_sorted_cols =>
      let sort_cols := columns df_sorted_cols in
      let df_sorted :=
        match sort_cols with
        | [] => df_sorted_cols
        | _ => sort_values df_sorted_cols
        end in
      let df_out := convert_dtypes df_sorted in
      Some (Py.encode (to_csv df_out))
  end.

End ETL.

(** ** Exceptions and outcomes *)

Module Outcome.

Inductive exn :=
| FileNotFoundError
| JSONDecodeError
| IndexError
| KeyError
| StopIteration
| TypeError
| AttributeError
| ValueError
| OverflowError
| MemoryError.

(** How a call ends: it returns, it raises, its mining loop is still running
    when the fuel is spent, or it was given a value that the annotated types
    of the class do not admit (such calls are not modelled further). *)
Inductive outcome (A : Type) :=
| Return (a : A)
| Raise (e : exn)
| Spinning
| Untyped.

Arguments Return {A} a.
Arguments Raise {A} e.
Arguments Spinning {A}.
Arguments Untyped {A}.

Definition bind {A B : Type} (c : outcome A) (k : A -> outcome B) : outcome B :=
  match c with
  | Return a => k a
  | Raise e => Raise e
  | Spinning => Spinning
  | Untyped => Untyped
  end.

End Outcome.

Import Outcome.

Notation "x <- c ;; k" := (bind c (fun x => k))
  (at level 61, c at next level, right associativity).

(** ** Python operations on JSON values *)

Module PyOps.

(** [v[key]] for a [str] key. *)
Definition subscript (v : json) (key : string) : outcome json :=
  match v with
  | JDict items =>
      match lookup key items with
      | Some x => Return x
      | None => Raise KeyError
      end
  | _ => Raise TypeError
  end.

Definition last_char (s : string) : string :=
  substring (String.length s - 1) 1 s.

(** [v[-1]] *)
Definition last_item (v : json) : outcome json :=
  match v with
  | JList [] => Raise IndexError
  | JList (x :: l) => Return (last l x)
  | JStr s => if String.eqb s EmptyString then Raise IndexError
              else Return (JStr (last_char s))
  | JDict _ => Raise KeyError
  | _ => Raise TypeError
  end.

(** The items that [for h in v] visits. *)
Definition iterate (v : json) : outcome (list json) :=
  match v with
  | JList l => Return l
  | JDict items => Return (map (fun it => JStr (fst it)) items)
  | JStr s => Return (map (fun c => JStr (String c EmptyString)) (list_ascii_of_string s))
  | _ => Raise TypeError
  end.

(** [needle in hay] on [str]: [needle] occurs as a substring. *)
Fixpoint contains (needle hay : string) : bool :=
  String.prefix needle hay ||
  match hay with
  | EmptyString => false
  | String _ rest => contains needle rest
  end.

Definition is_str (s : string) (v : json) : bool :=
  match v with
  | JStr x => String.eqb x s
  | _ => false
  end.

(** [needle in v] for a [str] needle. *)
Definition str_in (needle : string) (v : json) : outcome bool :=
  match v with
  | JStr s => Return (contains needle s)
  | JList l => Return (existsb (is_str needle) l)
  | JDict items => Return (existsb (fun it => String.eqb (fst it) needle) items)
  | _ => Raise TypeError
  end.

(** A value where the signature says [str]. *)
Definition as_str (v : json) : outcome string :=
  match v with
  | JStr s => Return s
  | _ => Untyped
  end.

End PyOps.

(** ** ETLBlockchain.add_block_from_ledger *)

Module Ledger.

Import PyOps.

(** A file as the methods see it: absent, present with text that is not
    JSON, or present with a JSON document. *)
Inductive file :=
| Absent
| Garbled
| Doc (v : json).

(** [next(h["sha256"] for h in extraction_hashes if needle in h["path"])] *)
Fixpoint first_sha256 (needle : string) (hs : list json) : outcome json :=
  match hs with
  | [] => Raise StopIteration
  | h :: rest =>
      path <- subscript h "path" ;;
      found <- str_in needle path ;;
      if found then subscript h "sha256" else first_sha256 needle rest
  end.

Definition etl_metadata_of (latest_entry : json) : outcome json :=
  input_paths <- subscript latest_entry "input_paths" ;;
  etl_config <- subscript latest_entry "etl" ;;
  output <- subscript latest_entry "output" ;;
  rows <- subscript output "rows" ;;
  output' <- subscript latest_entry "output" ;;
  cols <- subscript output' "cols" ;;
  etl_timestamp <- subscript latest_entry "timestamp_utc" ;;
  Return (JDict [ ("input_paths", input_paths);
                  ("etl_config", etl_config);
                  ("output_stats", JDict [ ("rows", rows); ("cols", cols) ]);
                  ("etl_timestamp", etl_timestamp) ]).

(** The call of [add_etl_data_block] at the end, with its two ways of not
    returning told apart. *)
Definition call_add_etl_data_block (fuel : nat) (self : ETLBlockchain.t)
    (s1_hash s2_hash dataset_hash : string) (etl_metadata : json)
    (now_utc : string) (now : Py.float) : outcome (ETLBlockchain.t * Block.t) :=
  match ETLBlockchain.add_etl_data_block fuel self s1_hash s2_hash dataset_hash
          etl_metadata now_utc now with
  | Some r => Return r
  | None =>
      match ETLBlockchain.get_latest_block self with
      | None => Raise IndexError
      | Some _ => Spinning
      end
  end.

(** [add_block_from_ledger], given what is at [ledger_path]. *)
Definition add_block_from_ledger (fuel : nat) (self : ETLBlockchain.t)
    (ledger : file) (now_utc : string) (now : Py.float)
  : outcome (ETLBlockchain.t * Block.t) :=
  match ledger with
  | Absent => Raise FileNotFoundError
  | Garbled => Raise JSONDecodeError
  | Doc ledger_data =>
      latest_entry <- last_item ledger_data ;;
      extraction_hashes <- subscript latest_entry "extraction_hashes" ;;
      hs <- iterate extraction_hashes ;;
      s1_hash <- first_sha256 "s1.csv" hs ;;
      hs' <- iterate extraction_hashes ;;
      s2_hash <- first_sha256 "s2.csv" hs' ;;
      output <- subscript latest_entry "output" ;;
      dataset_hash <- subscript output "deterministic_dataset_sha256" ;;
      etl_metadata <- etl_metadata_of latest_entry ;;
      s1 <- as_str s1_hash ;;
      s2 <- as_str s2_hash ;;
      ds <- as_str dataset_hash ;;
      call_add_etl_data_block fuel self s1 s2 ds etl_metadata now_utc now
  end.

(** *** The ledger side of ETL.etl *)

Definition opt_str (s : option string) : json :=
  match s with
  | Some x => JStr x
  | None => JNull
  end.

(** [date_columns or []] *)
Definition date_columns_or_empty (date_columns : option (list string)) : json :=
  match date_columns with
  | Some l => JList (map JStr l)
  | None => JList []
  end.

(** The entry that [etl] builds for a run. *)
Definition ledger_entry (timestamp_utc csv1 csv2 extraction_hash1 extraction_hash2 : string)
    (mode : string) (join_key : option string) (date_columns : option (list string))
    (rows cols : Z) (output dataset_hash : string) : json :=
  JDict [ ("timestamp_utc", JStr timestamp_utc);
          ("input_paths", JList [JStr csv1; JStr csv2]);
          ("extraction_hashes",
             JList [ JDict [ ("path", JStr csv1); ("sha256", JStr extraction_hash1) ];
                     JDict [ ("path", JStr csv2); ("sha256", JStr extraction_hash2) ] ]);
          ("etl", JDict [ ("mode", JStr mode);
                          ("join_key", opt_str join_key);
                          ("date_columns", date_columns_or_empty date_columns) ]);
          ("output", JDict [ ("rows", JInt rows);
                             ("cols", JInt cols);
                             ("deterministic_output_path", JStr output);
                             ("deterministic_dataset_sha256", JStr dataset_hash) ]) ].

(** The ledger that [etl] writes back: the entries it could read, then the
    new one. Text that is not JSON counts as no entries; a document that is
    not a list has no [append]. *)
Definition updated_ledger (existing : file) (entry : json) : outcome json :=
  let ledger_entries :=
    match existing with
    | Doc v => v
    | _ => JList []
    end in
  match ledger_entries with
  | JList l => Return (JList (l ++ [entry]))
  | _ => Raise AttributeError
  end.

End Ledger.

(** ** ETL.py: hashing a file, normalising column names *)

Module Extract.

(** A [hashlib.sha256()] object: the bytes it has been fed. *)
Record hasher := mkhasher { fed : string }.

Definition sha256 : hasher := mkhasher EmptyString.
Definition update (h : hasher) (chunk : string) : hasher := mkhasher (append (fed h) chunk).
Definition hexdigest (h : hasher) : string := SHA256.hexdigest (fed h).

Fixpoint drop (n : nat) (s : string) : string :=
  match n, s with
  | O, _ => s
  | S n', EmptyString => EmptyString
  | S n', String _ s' => drop n' s'
  end.

(** [f.read(n)] on what is left of a file opened with mode ["rb"]: the
    bytes read and what is left after them. The size is converted to the
    index type of the interpreter (64 bits), which fails with an
    [OverflowError] outside its range; [-1] reads to the end; any other
    negative size is refused with a [ValueError]. For a size [n >= 0] a
    bytes object of [n] bytes is made first: that is refused with an
    [OverflowError] above [2^63 - 34], the largest bytes object there is,
    and fails with a [MemoryError] above [heap], the largest size that the
    machine can give when the call is made. *)
Definition read (heap : N) (n : Z) (rest : string) : outcome (string * string) :=
  if (n <? - 2 ^ 63) || (2 ^ 63 <=? n) then Raise OverflowError
  else if n <? -1 then Raise ValueError
  else if n <? 0 then Return (rest, EmptyString)
  else if 2 ^ 63 - 34 <? n then Raise OverflowError
  else if Z.of_N heap <? n then Raise MemoryError
  else Return (substring 0 (Z.to_nat n) rest, drop (Z.to_nat n) rest).

(** [for chunk in iter(lambda: f.read(chunk_size), b""): h.update(chunk)];
    there are at most as many non-empty chunks as bytes left, which is all
    the fuel the loop is given. *)
Fixpoint read_loop (heap : N) (fuel : nat) (chunk_size : Z) (rest : string) (h : hasher)
  : outcome hasher :=
  match fuel with
  | O => Return h
  | S fuel' =>
      p <- read heap chunk_size rest ;;
      if String.eqb (fst p) EmptyString then Return h
      else read_loop heap fuel' chunk_size (snd p) (update h (fst p))
  end.

(** [sha256_file(path, chunk_size)]; [None] stands for a path with no
    file. The content of a file is taken to fit in memory. *)
Definition sha256_file (heap : N) (content : option string) (chunk_size : Z)
  : outcome string :=
  match content with
  | None => Raise FileNotFoundError
  | Some bytes =>
      h <- read_loop heap (S (String.length bytes)) chunk_size bytes sha256 ;;
      Return (hexdigest h)
  end.

(** [read_raw_bytes(path)] *)
Definition read_raw_bytes (content : option string) : outcome string :=
  match content with
  | None => Raise FileNotFoundError
  | Some bytes => Return bytes
  end.

End Extract.

Module Transform.

(** [str.isspace] and the class [\s], for code points below 256. *)
Definition is_space (c : ascii) : bool :=
  let n := Z.of_N (N_of_ascii c) in
  ((9 <=? n) && (n <=? 13)) || ((28 <=? n) && (n <=? 32)) || (n =? 133) || (n =? 160).

(** The class [0-9a-zA-Z_]. *)
Definition is_word (c : ascii) : bool :=
  let n := Z.of_N (N_of_ascii c) in
  ((48 <=? n) && (n <=? 57)) || ((65 <=? n) && (n <=? 90)) ||
  ((97 <=? n) && (n <=? 122)) || (n =? 95).

(** [str.lower] for code points below 256. *)
Definition lower_char (c : ascii) : ascii :=
  let n := Z.of_N (N_of_ascii c) in
  if ((65 <=? n) && (n <=? 90)) || ((192 <=? n) && (n <=? 222) && negb (n =? 215))
  then ascii_of_N (Z.to_N (n + 32))
  else c.

Fixpoint lstrip (l : list ascii) : list ascii :=
  match l with
  | [] => []
  | c :: l' => if is_space c then lstrip l' else l
  end.

(** [s.strip()] *)
Definition strip (l : list ascii) : list ascii := rev (lstrip (rev (lstrip l))).

(** [re.sub(r"\s+", "_", s)]: [in_run] says that the character before was
    white space, already replaced. *)
Fixpoint underscore_runs (in_run : bool) (l : list ascii) : list ascii :=
  match l with
  | [] => []
  | c :: l' =>
      if is_space c then
        if in_run then underscore_runs true l' else "_"%char :: underscore_runs true l'
      else c :: underscore_runs false l'
  end.

(** [re.sub(r"[^0-9a-zA-Z_]", "", s)] *)
Definition keep_word (l : list ascii) : list ascii := filter is_word l.

(** One label through [normalize_columns]. *)
Definition normalize_label (s : string) : string :=
  string_of_list_ascii
    (map lower_char (keep_word (underscore_runs false (strip (list_ascii_of_string s))))).

(** [normalize_columns(df)]: a copy with the labels normalised. *)
Definition normalize_columns (df : ETL.DataFrame) : ETL.DataFrame :=
  ETL.mkdf (map normalize_label (ETL.columns df)) (ETL.rows df).

End Transform.
(** * Specification vocabulary *)

(** The first [d] characters of [h] are all ['0']. *)
Definition leading_zeros (d : Z) (h : string) : Prop :=
  forall i, 0 <= i < d -> String.get (Z.to_nat i) h = Some "0"%char.

(** The stored hash is the hash of the other five fields. *)
Definition consistent (b : Block.t) : Prop :=
  Block.hash b = Block.calculate_hash b.

(** The block with its nonce set to [n] and its hash recomputed. *)
Definition at_nonce (b : Block.t) (n : Z) : Block.t :=
  let b' := Block.set_nonce n b in Block.set_hash (Block.calculate_hash b') b'.

(** Chains that the class can build: the constructor, then any number of
    [add_etl_data_block] calls. *)
Inductive built : ETLBlockchain.t -> Prop :=
| built_init fuel now_utc now bc :
    ETLBlockchain.init fuel now_utc now = Some bc -> built bc
| built_add fuel bc s1_hash s2_hash dataset_hash etl_metadata now_utc now bc' b :
    built bc ->
    ETLBlockchain.add_etl_data_block fuel bc s1_hash s2_hash dataset_hash
      etl_metadata now_utc now = Some (bc', b) ->
    built bc'.

(** What [is_chain_valid] looks for at index [i]: a stored hash that is not
    the recomputed one, or a [previous_hash] that is not the hash stored in
    the block before. *)
Definition hash_mismatch (c : list Block.t) (i : nat) : bool :=
  match nth_error c i with
  | Some cur => negb (String.eqb (Block.hash cur) (Block.calculate_hash cur))
  | None => false
  end.

Definition link_broken (c : list Block.t) (i : nat) : bool :=
  match nth_error c i, nth_error c (i - 1) with
  | Some cur, Some prev => negb (String.eqb (Block.previous_hash cur) (Block.hash prev))
  | _, _ => false
  end.

Definition fails_at (c : list Block.t) (i : nat) : bool :=
  hash_mismatch c i || link_broken c i.

(** The line printed for a failure at index [i]. *)
Definition failure_line (c : list Block.t) (i : nat) : string :=
  append (if hash_mismatch c i then "Invalid hash at block "
          else "Invalid previous hash at block ")
         (Py.str_int (Z.of_nat i)).

(** Assignments to one attribute of a block. *)
Inductive mutation :=
| SetIndex (z : Z)
| SetData (d : json)
| SetPreviousHash (s : string)
| SetTimestamp (x : Py.float)
| SetNonce (n : Z)
| SetHash (h : string).

Definition mutate (m : mutation) (b : Block.t) : Block.t :=
  match m with
  | SetIndex z =>
      Block.mk z (Block.data b) (Block.previous_hash b) (Block.timestamp b)
        (Block.nonce b) (Block.hash b)
  | SetData d =>
      Block.mk (Block.index b) d (Block.previous_hash b) (Block.timestamp b)
        (Block.nonce b) (Block.hash b)
  | SetPreviousHash s =>
      Block.mk (Block.index b) (Block.data b) s (Block.timestamp b)
        (Block.nonce b) (Block.hash b)
  | SetTimestamp x =>
      Block.mk (Block.index b) (Block.data b) (Block.previous_hash b) x
        (Block.nonce b) (Block.hash b)
  | SetNonce n => Block.set_nonce n b
  | SetHash h => Block.set_hash h b
  end.

(** The mutation shows in the block: a new stored hash, or, for the five
    hashed fields, a new recomputed hash (which a change of value gives
    unless two serialisations collide under SHA-256). *)
Definition shows (m : mutation) (b : Block.t) : Prop :=
  match m with
  | SetHash h => h <> Block.hash b
  | _ => Block.calculate_hash (mutate m b) <> Block.calculate_hash b
  end.

(** [chain[i] = b]; out of range the list is left as it is. *)
Fixpoint list_set (i : nat) (b : Block.t) (c : list Block.t) : list Block.t :=
  match c, i with
  | [], _ => []
  | _ :: rest, O => b :: rest
  | x :: rest, S i' => x :: list_set i' b rest
  end.

Definition set_block (i : nat) (b : Block.t) (bc : ETLBlockchain.t) : ETLBlockchain.t :=
  ETLBlockchain.mk (list_set i b (ETLBlockchain.chain bc)) (ETLBlockchain.difficulty bc).

(** ** A worked chain

    Three blocks as the class builds them at difficulty 4, with clock
    readings for which the search ends after one or two increments. *)

Module Example.

Definition utc0 : string := "2025-01-01T00:00:00+00:00".
Definition utc1 : string := "2025-01-02T00:00:00+00:00".
Definition utc2 : string := "2025-01-03T00:00:00+00:00".

(** 1735691477.5, 1735787942.25 and 1735862761.75 *)
Definition now0 : Py.float := S754_finite false 7280017706844160 (-22).
Definition now1 : Py.float := S754_finite false 7280422309330944 (-22).
Definition now2 : Py.float := S754_finite false 7280736125059072 (-22).

Definition fresh_genesis : Block.t :=
  Block.init 0 (ETLBlockchain.genesis_data utc0) "0" None now0.

Definition genesis : Block.t :=
  Block.mk 0 (ETLBlockchain.genesis_data utc0) "0" now0 1
    "00004654c432cd804794a3fd5a8c76bec7169ae63d8cb914793cebea04e52fba".

Definition block1 : Block.t :=
  Block.mk 1 (ETLBlockchain.etl_data "aaa" "bbb" "ccc" JNull utc1)
    (Block.hash genesis) now1 2
    "0000373afdc09d3e269537e1e7ec04511025c033521ed1e46e3d3d5c0cebb192".

Definition metadata2 : json := JDict [ ("mode", JStr "union") ].

Definition block2 : Block.t :=
  Block.mk 2 (ETLBlockchain.etl_data "ddd" "eee" "fff" metadata2 utc2)
    (Block.hash block1) now2 1
    "00001bc2007c5c26ccc691412138ae27d0b12874c6c65c9aec8d60c29acdd60a".

Definition chain1 : ETLBlockchain.t := ETLBlockchain.mk [genesis] 4.
Definition chain2 : ETLBlockchain.t := ETLBlockchain.mk [genesis; block1] 4.
Definition chain3 : ETLBlockchain.t := ETLBlockchain.mk [genesis; block1; block2] 4.

(** Block 1 with its nonce overwritten, and block 2 likewise. *)
Definition chain3_bad1 : ETLBlockchain.t := set_block 1 (mutate (SetNonce 3) block1) chain3.
Definition chain3_bad2 : ETLBlockchain.t := set_block 2 (mutate (SetNonce 7) block2) chain3.

(** The genesis block with another payload, nonce and timestamp under the
    same stored hash. *)
Definition forged_genesis : Block.t :=
  Block.mk 0 (JStr "rewritten") "0" (S754_zero false) 77 (Block.hash genesis).

Definition chain3_forged : ETLBlockchain.t :=
  ETLBlockchain.mk [forged_genesis; block1; block2] 4.

(** Block 1 as built, before any mining: its hash is the recomputed one and
    does not start with a zero. *)
Definition unmined1 : Block.t :=
  Block.mk 1 (ETLBlockchain.etl_data "aaa" "bbb" "ccc" JNull utc1)
    (Block.hash genesis) now1 0
    "1dcc77b9d3e26b926cc5a8eedc5d00beb570d325c2ad9ac9e0c5fae6a3f796eb".

Definition chain2_unmined : ETLBlockchain.t := ETLBlockchain.mk [forged_genesis; unmined1] 4.

(** A sealed block 1 whose timestamp is 0.0. *)
Definition epoch1 : Block.t :=
  Block.mk 1 (ETLBlockchain.etl_data "aaa" "bbb" "ccc" JNull utc1)
    (Block.hash genesis) (S754_zero false) 4049
    "00007e9986a025f938954c16babecd04ac9f45470e73b62e586d34ca041c5116".

Definition chain2_epoch : ETLBlockchain.t := ETLBlockchain.mk [genesis; epoch1] 4.

End Example.

(** ** Worked frames *)

Module Frames.

Import ETL.

Definition zero : cell := CFloat (S754_zero false).
Definition minus_zero : cell := CFloat (S754_zero true).
(** 0.5 *)
Definition half : cell := CFloat (S754_finite false 4503599627370496 (-53)).

(** [pd.DataFrame({"x": [0.0, -0.0, 0.5]})] and the same rows in another
    order. *)
Definition D : DataFrame := mkdf ["x"] [[zero]; [minus_zero]; [half]].
Definition D_shuffled : DataFrame := mkdf ["x"] [[minus_zero]; [zero]; [half]].

(** A frame of no row and no column, and one of no row and two columns. *)
Definition empty : DataFrame := mkdf [] [].
Definition empty_ba : DataFrame := mkdf ["b"; "a"] [].

Definition newline_only : string := String newline EmptyString.

(** The text made of the given lines, each with its terminator. *)
Definition lines (l : list string) : string :=
  String.concat EmptyString (map (fun s => append s newline_only) l).

End Frames.

(** * Further vocabulary *)

(** What [load_blockchain] makes of a block it saved: the block, with the
    clock reading in place of a falsy timestamp. *)
Definition reloaded (now : Py.float) (b : Block.t) : Block.t :=
  if Py.float_truthy (Block.timestamp b) then b
  else Block.mk (Block.index b) (Block.data b) (Block.previous_hash b) now
         (Block.nonce b) (Block.hash b).

Fixpoint reloaded_chain (k : nat) (clock : nat -> Py.float) (c : list Block.t)
  : list Block.t :=
  match c with
  | [] => []
  | b :: rest => reloaded (clock k) b :: reloaded_chain (S k) clock rest
  end.

(** The list without its element at position [i]. *)
Fixpoint remove_at (i : nat) (c : list Block.t) : list Block.t :=
  match c, i with
  | [], _ => []
  | _ :: rest, O => rest
  | x :: rest, S i' => x :: remove_at i' rest
  end.

(** The extraction hash that [add_block_from_ledger] finds for a file name in
    an entry of two inputs: that of the first input whose path contains the
    name. *)
Definition pick_hash (needle csv1 csv2 h1 h2 : string) : option string :=
  if PyOps.contains needle csv1 then Some h1
  else if PyOps.contains needle csv2 then Some h2
  else None.

(** The metadata a block carries for a run of [etl]. *)
Definition run_metadata (timestamp_utc csv1 csv2 mode : string)
    (join_key : option string) (date_columns : option (list string)) (rows cols : Z)
  : json :=
  JDict [ ("input_paths", JList [JStr csv1; JStr csv2]);
          ("etl_config", JDict [ ("mode", JStr mode);
                                 ("join_key", Ledger.opt_str join_key);
                                 ("date_columns", Ledger.date_columns_or_empty date_columns) ]);
          ("output_stats", JDict [ ("rows", JInt rows); ("cols", JInt cols) ]);
          ("etl_timestamp", JStr timestamp_utc) ].

(** The characters left by [normalize_columns]: digits, lowercase letters
    and the underscore. *)
Definition is_label_char (c : ascii) : bool :=
  let n := Z.of_N (N_of_ascii c) in
  ((48 <=? n) && (n <=? 57)) || ((97 <=? n) && (n <=? 122)) || (n =? 95).

(** The frame with its columns taken in the order [p] of positions: column
    [k] of the result is column [nth k p] of [df], label and cells. *)
Definition select_columns (p : list nat) (df : ETL.DataFrame) : ETL.DataFrame :=
  ETL.mkdf (map (fun j => nth j (ETL.columns df) EmptyString) p)
           (map (fun r => map (fun j => nth j r ETL.NA) p) (ETL.rows df)).

(** The order of the cells as an order on integer keys: a float by sign
    class, exponent and mantissa, a string by its code points. Missing
    values share one key, and so do the two zeros. *)
Definition float_key (x : Py.float) : list Z :=
  match x with
  | S754_zero _ => [0]
  | S754_infinity s => [if s then -2 else 2]
  | S754_nan => []
  | S754_finite s m e => if s then [-1; - e; Zneg m] else [1; e; Zpos m]
  end.

Definition cell_key (c : ETL.cell) : list Z :=
  if ETL.is_na c then [0]
  else match c with
       | ETL.NA => [0]
       | ETL.CBool b => [1; if b then 1 else 0]
       | ETL.CInt z => [2; z]
       | ETL.CFloat x => 3 :: float_key x
       | ETL.CStr s => 4 :: map (fun c => Z.of_N (N_of_ascii c)) (list_ascii_of_string s)
       | ETL.CTime t => 5 :: ETL.time_key t
       end.

(** No two different rows of the frame compare equal in every column. *)
Definition no_ties (df : ETL.DataFrame) : Prop :=
  forall r1 r2,
    In r1 (ETL.rows df) -> In r2 (ETL.rows df) ->
    (forall j, (j < List.length (ETL.columns df))%nat ->
               ETL.cell_compare (nth j r1 ETL.NA) (nth j r2 ETL.NA) = Eq) ->
    r1 = r2.

(** * Properties *)

(** ** Strings: what the loop condition of [mine_block] tests *)

Lemma substring_repeat (c : ascii) (n : nat) (h : string) :
  substring 0 (Nat.min n (String.length h)) h = string_of_list_ascii (repeat c n)
  <-> (forall i, (i < n)%nat -> String.get i h = Some c).
Proof.
  revert h; induction n as [|n IH]; intros h.
  - simpl. split; [intros _ i Hi; lia | intros _; destruct h; reflexivity].
  - destruct h as [|a h]; simpl.
    + split; [discriminate | intros H; specialize (H O); simpl in H].
      assert (Hn : None = Some c) by (apply H; lia). discriminate.
    + split.
      * intros H; injection H as Ha Hs. subst a.
        intros [|i] Hi; simpl; [reflexivity | apply IH; [exact Hs | lia]].
      * intros H. f_equal.
        -- specialize (H O); simpl in H.
           assert (Ha : Some a = Some c) by (apply H; lia). congruence.
        -- apply IH. intros i Hi. apply (H (S i)). lia.
Qed.

Lemma length_string_of_list_ascii (l : list ascii) :
  String.length (string_of_list_ascii l) = List.length l.
Proof. induction l; simpl; congruence. Qed.

Lemma length_substring_le (n : nat) (h : string) :
  (String.length (substring 0 n h) <= String.length h)%nat.
Proof.
  revert h; induction n as [|n IH]; intros [|a h]; simpl; try lia.
  specialize (IH h); lia.
Qed.

Lemma length_substring_min (n : nat) (h : string) :
  String.length (substring 0 n h) = Nat.min n (String.length h).
Proof.
  revert h; induction n as [|n IH]; intros [|a h]; simpl; try lia.
  rewrite IH; reflexivity.
Qed.

(** For [d >= 0] the loop of [mine_block] stops exactly on the hashes that
    start with [d] zeros. *)
Lemma sealed_leading_zeros (d : Z) (b : Block.t) :
  0 <= d ->
  Block.sealed d b = true <-> leading_zeros d (Block.hash b).
Proof.
  intros Hd. unfold Block.sealed, Block.target, Py.str_repeat, Py.slice_to.
  rewrite String.eqb_eq.
  destruct (d <? 0) eqn:E; [apply Z.ltb_lt in E; lia|].
  set (h := Block.hash b).
  replace (Z.to_nat (Z.min d (Z.of_nat (String.length h))))
    with (Nat.min (Z.to_nat d) (String.length h)) by lia.
  rewrite substring_repeat. unfold leading_zeros. split.
  - intros H i Hi. apply H. lia.
  - intros H i Hi. specialize (H (Z.of_nat i)).
    rewrite Nat2Z.id in H. apply H. lia.
Qed.

(** ** The digest is always 64 characters long *)

Lemma length_append (s1 s2 : string) :
  String.length (append s1 s2) = (String.length s1 + String.length s2)%nat.
Proof. induction s1; simpl; congruence. Qed.

Lemma length_compress (hs block : list Z) :
  List.length hs = 8%nat -> List.length (SHA256.compress hs block) = 8%nat.
Proof.
  intros H. unfold SHA256.compress.
  destruct (fold_left SHA256.round _ _).
  rewrite length_map, length_combine, H. reflexivity.
Qed.

Lemma length_digest_words (msg : list Z) :
  List.length (SHA256.digest_words msg) = 8%nat.
Proof.
  unfold SHA256.digest_words.
  generalize (SHA256.chunks (List.length (SHA256.words (SHA256.pad msg)))
                            (SHA256.words (SHA256.pad msg))).
  assert (H : List.length SHA256.H0 = 8%nat) by reflexivity.
  revert H; generalize SHA256.H0. intros hs H l; revert hs H.
  induction l as [|c l IH]; intros hs H; simpl; [exact H|].
  apply IH, length_compress, H.
Qed.

Lemma length_hex_word (w : Z) : String.length (SHA256.hex_word w) = 8%nat.
Proof. reflexivity. Qed.

Lemma length_concat_cons (x : string) (xs : list string) :
  String.length (String.concat EmptyString (x :: xs))
  = (String.length x + String.length (String.concat EmptyString xs))%nat.
Proof.
  destruct xs as [|y ys].
  - simpl. lia.
  - change (String.concat EmptyString (x :: y :: ys))
      with (append x (append EmptyString (String.concat EmptyString (y :: ys)))).
    rewrite length_append. reflexivity.
Qed.

Lemma length_concat_hex (ws : list Z) :
  String.length (String.concat EmptyString (map SHA256.hex_word ws))
  = (8 * List.length ws)%nat.
Proof.
  induction ws as [|w ws IH]; [reflexivity|].
  rewrite map_cons, length_concat_cons, IH, length_hex_word. simpl List.length. lia.
Qed.

Lemma length_hexdigest (s : string) : String.length (SHA256.hexdigest s) = 64%nat.
Proof.
  unfold SHA256.hexdigest. rewrite length_concat_hex, length_digest_words. reflexivity.
Qed.

(** The digest is computed only on concrete inputs, by [vm_compute]. *)
#[global] Opaque SHA256.hexdigest.

(** ** Mining *)

Section Mining.

Import Block.

Lemma calculate_hash_set_hash (h : string) (b : t) :
  calculate_hash (set_hash h b) = calculate_hash b.
Proof. reflexivity. Qed.

Lemma consistent_init idx dat prev ts now : consistent (init idx dat prev ts now).
Proof. reflexivity. Qed.

Lemma consistent_at_nonce (b : t) (n : Z) : consistent (at_nonce b n).
Proof. reflexivity. Qed.

Lemma bump_at_nonce (b : t) : bump b = at_nonce b (nonce b + 1).
Proof. reflexivity. Qed.

Lemma at_nonce_self (b : t) : consistent b -> at_nonce b (nonce b) = b.
Proof. destruct b; unfold consistent, at_nonce; simpl; intros ->; reflexivity. Qed.

Lemma iter_bump (k : nat) (b : t) :
  consistent b -> Nat.iter k bump b = at_nonce b (nonce b + Z.of_nat k).
Proof.
  intros Hb. induction k as [|k IH].
  - simpl. rewrite Z.add_0_r. symmetry. apply at_nonce_self, Hb.
  - rewrite Nat.iter_succ, IH, bump_at_nonce. unfold at_nonce; simpl.
    replace (nonce b + Z.of_nat k + 1) with (nonce b + Z.pos (Pos.of_succ_nat k)) by lia.
    reflexivity.
Qed.

(** What a finished run of the loop looks like: [k] iterations, none of the
    blocks met on the way passed the test, the last one does. *)
Lemma mine_block_run (fuel : nat) (d : Z) (b b' : t) :
  mine_block fuel d b = Some b' ->
  exists k, (k <= fuel)%nat /\ b' = Nat.iter k bump b /\ sealed d b' = true /\
            forall j, (j < k)%nat -> sealed d (Nat.iter j bump b) = false.
Proof.
  revert b; induction fuel as [|fuel IH]; intros b; simpl;
    destruct (sealed d b) eqn:E; intros H; try discriminate.
  - injection H as <-. exists O. repeat split; auto; intros; lia.
  - injection H as <-. exists O. repeat split; auto; try lia; intros; lia.
  - destruct (IH _ H) as (k & Hk & Hb & Hs & Hj).
    exists (S k). rewrite Nat.iter_succ_r. repeat split; auto; try lia.
    intros [|j] Hlt; [exact E|]. rewrite Nat.iter_succ_r. apply Hj. lia.
Qed.

(** The loop ends as soon as the fuel reaches a block that passes. *)
Lemma mine_block_reaches (k : nat) (d : Z) (b : t) :
  sealed d (Nat.iter k bump b) = true ->
  exists b', mine_block k d b = Some b'.
Proof.
  revert b; induction k as [|k IH]; intros b H; simpl in *.
  - rewrite H. eauto.
  - destruct (sealed d b); [eauto|]. apply IH. rewrite <- Nat.iter_succ_r. exact H.
Qed.

Lemma mine_block_more_fuel (fuel extra : nat) (d : Z) (b b' : t) :
  mine_block fuel d b = Some b' -> mine_block (fuel + extra) d b = Some b'.
Proof.
  revert b; induction fuel as [|fuel IH]; intros b; simpl.
  - destruct (sealed d b) eqn:E; [|discriminate]. intros H.
    destruct extra; simpl; rewrite E; exact H.
  - destruct (sealed d b); [auto | apply IH].
Qed.

End Mining.

Lemma consistent_mined (fuel : nat) (d : Z) (b b' : Block.t) :
  consistent b -> Block.mine_block fuel d b = Some b' -> consistent b'.
Proof.
  intros Hb H. destruct (mine_block_run _ _ _ _ H) as (k & _ & -> & _).
  rewrite iter_bump by exact Hb. apply consistent_at_nonce.
Qed.

(** A digest has 64 characters, so no block passes a test for more. *)
Lemma not_sealed_above_64 (d : Z) (b : Block.t) :
  64 < d -> consistent b -> Block.sealed d b = false.
Proof.
  intros Hd Hb. unfold Block.sealed. apply String.eqb_neq. intros H.
  apply (f_equal String.length) in H. revert H.
  unfold Block.target, Py.str_repeat, Py.slice_to.
  rewrite length_string_of_list_ascii, repeat_length, length_substring_min.
  rewrite Hb. unfold Block.calculate_hash. rewrite length_hexdigest.
  destruct (d <? 0) eqn:E; [apply Z.ltb_lt in E|]; lia.
Qed.

Lemma mine_block_above_64 (fuel : nat) (d : Z) (b : Block.t) :
  64 < d -> consistent b -> Block.mine_block fuel d b = None.
Proof.
  intros Hd. revert b; induction fuel as [|fuel IH]; intros b Hb; simpl;
    rewrite (not_sealed_above_64 d b Hd Hb); [reflexivity|].
  apply IH. rewrite bump_at_nonce. apply consistent_at_nonce.
Qed.

Lemma init_fields idx dat prev ts now :
  Block.index (Block.init idx dat prev ts now) = idx /\
  Block.data (Block.init idx dat prev ts now) = dat /\
  Block.previous_hash (Block.init idx dat prev ts now) = prev /\
  Block.nonce (Block.init idx dat prev ts now) = 0.
Proof. repeat split. Qed.

Lemma at_nonce_fields (b : Block.t) (n : Z) :
  Block.index (at_nonce b n) = Block.index b /\
  Block.data (at_nonce b n) = Block.data b /\
  Block.previous_hash (at_nonce b n) = Block.previous_hash b /\
  Block.timestamp (at_nonce b n) = Block.timestamp b /\
  Block.nonce (at_nonce b n) = n /\
  Block.hash (at_nonce b n) = Block.calculate_hash (Block.set_nonce n b).
Proof. repeat split. Qed.


Lemma mined_fields (fuel : nat) (d : Z) (b b' : Block.t) :
  consistent b ->
  Block.mine_block fuel d b = Some b' ->
  consistent b' /\
  Block.index b' = Block.index b /\ Block.data b' = Block.data b /\
  Block.previous_hash b' = Block.previous_hash b /\
  Block.timestamp b' = Block.timestamp b.
Proof.
  intros Hb H. destruct (mine_block_run _ _ _ _ H) as (k & _ & -> & _).
  rewrite iter_bump by exact Hb.
  destruct (at_nonce_fields b (Block.nonce b + Z.of_nat k)) as (Ei & Ed & Ep & Et & _).
  split; [apply consistent_at_nonce | auto].
Qed.

(** The constructor: an empty chain, difficulty 4, and the mined genesis
    block appended. *)
Lemma init_chain (fuel : nat) (now_utc : string) (now : Py.float) (bc : ETLBlockchain.t) :
  ETLBlockchain.init fuel now_utc now = Some bc ->
  exists g,
    Block.mine_block fuel 4
      (Block.init 0 (ETLBlockchain.genesis_data now_utc) "0" None now) = Some g /\
    ETLBlockchain.chain bc = [g] /\ ETLBlockchain.difficulty bc = 4.
Proof.
  unfold ETLBlockchain.init, ETLBlockchain.create_genesis_block. simpl.
  destruct (Block.mine_block fuel 4 _) as [g|]; [|discriminate].
  intros H; injection H as <-. exists g. auto.
Qed.







(** C8 as stated fails: a digest has 64 hexadecimal characters, so at
    difficulty 65 the loop of [mine_block] never ends, whatever the fuel. *)
Lemma mine_block_diverges_at_65 :
  ~ (exists fuel b', Block.mine_block fuel 65 Example.fresh_genesis = Some b').
Proof.
  intros (fuel & b' & H).
  rewrite (mine_block_above_64 fuel 65 Example.fresh_genesis) in H;
    [discriminate | lia | apply consistent_init].
Qed.

(** C8, amended. Mining a freshly built block ends whenever some nonce
    [n >= 0] gives a digest that passes the test of the loop, after at most
    [n] iterations and with any larger fuel; there is no error path; the
    nonce of the result is the exact number of increments, counted in the
    integers (no wrap-around), and is at most [n]. *)
Theorem mine_block_terminates
    (idx : Z) (dat : json) (prev : string) (ts : option Py.float) (now : Py.float)
    (d n : Z) :
  0 <= n ->
  Block.sealed d (at_nonce (Block.init idx dat prev ts now) n) = true ->
  exists b',
    (forall fuel, (Z.to_nat n <= fuel)%nat ->
       Block.mine_block fuel d (Block.init idx dat prev ts now) = Some b') /\
    0 <= Block.nonce b' <= n /\
    b' = Nat.iter (Z.to_nat (Block.nonce b')) Block.bump (Block.init idx dat prev ts now).
Proof.
  intros Hn Hs.
  pose proof (consistent_init idx dat prev ts now) as Hb.
  pose proof (init_fields idx dat prev ts now) as (_ & _ & _ & Hn0).
  revert Hs Hb Hn0. generalize (Block.init idx dat prev ts now) as b.
  intros b Hs Hb Hn0.
  destruct (mine_block_reaches (Z.to_nat n) d b) as (b' & Hm).
  { rewrite iter_bump by exact Hb. rewrite Hn0, Z.add_0_l, Z2Nat.id by lia. exact Hs. }
  exists b'. destruct (mine_block_run _ _ _ _ Hm) as (k & Hk & Hb' & _ & _).
  assert (En : Block.nonce b' = Z.of_nat k).
  { rewrite Hb', iter_bump by exact Hb.
    destruct (at_nonce_fields b (Block.nonce b + Z.of_nat k)) as (_ & _ & _ & _ & -> & _).
    lia. }
  split; [|split].
  - intros fuel Hf. replace fuel with (Z.to_nat n + (fuel - Z.to_nat n))%nat by lia.
    apply mine_block_more_fuel, Hm.
  - lia.
  - rewrite En, Nat2Z.id. exact Hb'.
Qed.

Lemma mine_block_terminates_witness :
  0 <= 1 /\
  Block.sealed 4 (at_nonce Example.fresh_genesis 1) = true /\
  exists b',
    (forall fuel, (Z.to_nat 1 <= fuel)%nat ->
       Block.mine_block fuel 4 Example.fresh_genesis = Some b') /\
    0 <= Block.nonce b' <= 1 /\
    b' = Nat.iter (Z.to_nat (Block.nonce b')) Block.bump Example.fresh_genesis.
Proof.
  assert (H : Block.sealed 4 (at_nonce Example.fresh_genesis 1) = true)
    by (vm_compute; reflexivity).
  split; [lia|]. split; [exact H|].
  apply (mine_block_terminates 0 (ETLBlockchain.genesis_data Example.utc0) "0" None
           Example.now0 4 1); [lia | exact H].
Defined.

(** The converse: a run that ends has found such a nonce. *)
Lemma mine_block_only_if_reachable (fuel : nat) (d : Z) (b b' : Block.t) :
  consistent b ->
  Block.mine_block fuel d b = Some b' ->
  exists k, (k <= fuel)%nat /\
            Block.sealed d (at_nonce b (Block.nonce b + Z.of_nat k)) = true.
Proof.
  intros Hb H. destruct (mine_block_run _ _ _ _ H) as (k & Hk & -> & Hs & _).
  exists k. rewrite iter_bump in Hs by exact Hb. auto.
Qed.

(** ** Chain validation *)

Lemma check_block_fails_at (c : list Block.t) (i : nat) :
  (i < List.length c)%nat ->
  ETLBlockchain.check_block c i
  = if fails_at c i then Some (failure_line c i) else None.
Proof.
  intros Hi. unfold ETLBlockchain.check_block, fails_at, failure_line,
    hash_mismatch, link_broken.
  destruct (nth_error c i) as [cur|] eqn:Ec.
  - destruct (nth_error c (i - 1)) as [prev|] eqn:Ep.
    + destruct (negb (Block.hash cur =? Block.calculate_hash cur)%string); simpl;
        [reflexivity|].
      destruct (negb (Block.previous_hash cur =? Block.hash prev)%string); reflexivity.
    + apply nth_error_None in Ep. lia.
  - apply nth_error_None in Ec. lia.
Qed.

Lemma scan_all (c : list Block.t) (a n : nat) :
  (forall j, (a <= j < a + n)%nat -> ETLBlockchain.check_block c j = None) ->
  ETLBlockchain.scan c (seq a n) = (true, []).
Proof.
  revert a; induction n as [|n IH]; intros a H; simpl; [reflexivity|].
  rewrite H by lia. apply IH. intros j Hj. apply H. lia.
Qed.

Lemma scan_first (c : list Block.t) (a n i : nat) (line : string) :
  (a <= i < a + n)%nat ->
  (forall j, (a <= j < i)%nat -> ETLBlockchain.check_block c j = None) ->
  ETLBlockchain.check_block c i = Some line ->
  ETLBlockchain.scan c (seq a n) = (false, [line]).
Proof.
  revert a; induction n as [|n IH]; intros a Hi Hj Hc; simpl; [lia|].
  destruct (Nat.eq_dec a i) as [->|Hne].
  - rewrite Hc. reflexivity.
  - rewrite Hj by lia. apply IH; [lia | intros j Hlt; apply Hj; lia | exact Hc].
Qed.

Lemma scan_true_inv (c : list Block.t) (a n : nat) (out : list string) :
  ETLBlockchain.scan c (seq a n) = (true, out) ->
  out = [] /\ forall j, (a <= j < a + n)%nat -> ETLBlockchain.check_block c j = None.
Proof.
  revert a; induction n as [|n IH]; intros a; simpl.
  - intros H; injection H as <-. split; [reflexivity | intros; lia].
  - destruct (ETLBlockchain.check_block c a) eqn:E; [discriminate|].
    intros H. destruct (IH _ H) as (-> & Hj). split; [reflexivity|].
    intros j Hr. destruct (Nat.eq_dec j a) as [->|]; [exact E | apply Hj; lia].
Qed.

(** The scan returns either [True] with nothing printed or [False] with one
    line. *)
Lemma scan_false_inv (c : list Block.t) (a n : nat) (out : list string) :
  ETLBlockchain.scan c (seq a n) = (false, out) ->
  exists i, (a <= i < a + n)%nat /\
            (forall j, (a <= j < i)%nat -> ETLBlockchain.check_block c j = None) /\
            ETLBlockchain.check_block c i = Some (hd EmptyString out) /\
            out = [hd EmptyString out].
Proof.
  revert a; induction n as [|n IH]; intros a; simpl; [discriminate|].
  destruct (ETLBlockchain.check_block c a) as [line|] eqn:E.
  - intros H; injection H as <-. exists a. simpl.
    split; [lia|]. split; [intros; lia|]. split; [exact E | reflexivity].
  - intros H. destruct (IH _ H) as (i & Hi & Hj & Hc & Ho).
    exists i. split; [lia|]. split; [|split; assumption].
    intros j Hr. destruct (Nat.eq_dec j a) as [->|]; [exact E | apply Hj; lia].
Qed.

Lemma last_default (x : Block.t) (l : list Block.t) (d d' : Block.t) :
  last (x :: l) d = last (x :: l) d'.
Proof.
  revert x; induction l as [|y l IH]; intros x; [reflexivity|].
  change (last (y :: l) d = last (y :: l) d'). apply IH.
Qed.

Lemma nth_error_last (b : Block.t) (rest : list Block.t) :
  nth_error (b :: rest) (List.length rest) = Some (last rest b).
Proof.
  revert b; induction rest as [|x rest IH]; intros b; [reflexivity|].
  simpl List.length. change (nth_error (b :: x :: rest) (S (List.length rest)))
    with (nth_error (x :: rest) (List.length rest)).
  rewrite IH. f_equal. destruct rest as [|y r]; [reflexivity|].
  change (last (x :: y :: r) b) with (last (y :: r) b). apply last_default.
Qed.

(** Appending a block whose hash is the recomputed one and whose
    [previous_hash] is the hash of the latest block keeps the scan silent. *)
Lemma check_block_append (c : list Block.t) (latest b : Block.t) :
  ETLBlockchain.get_latest_block (ETLBlockchain.mk c 0) = Some latest ->
  consistent b ->
  Block.previous_hash b = Block.hash latest ->
  (forall i, (1 <= i < List.length c)%nat -> ETLBlockchain.check_block c i = None) ->
  forall i, (1 <= i < List.length (c ++ [b]))%nat ->
            ETLBlockchain.check_block (c ++ [b]) i = None.
Proof.
  intros Hl Hb Hp Hc i Hi. rewrite length_app in Hi. simpl in Hi.
  unfold ETLBlockchain.check_block.
  destruct (Nat.eq_dec i (List.length c)) as [->|Hne].
  - rewrite nth_error_app2, Nat.sub_diag by lia. simpl.
    rewrite nth_error_app1 by lia.
    unfold ETLBlockchain.get_latest_block in Hl. simpl in Hl.
    destruct c as [|x rest]; [discriminate|]. injection Hl as <-.
    simpl List.length. rewrite Nat.sub_succ, Nat.sub_0_r, nth_error_last.
    rewrite <- Hb, String.eqb_refl. simpl. rewrite Hp, String.eqb_refl. reflexivity.
  - rewrite !nth_error_app1 by lia. apply Hc. lia.
Qed.

Lemma is_chain_valid_iff (bc : ETLBlockchain.t) :
  ETLBlockchain.is_chain_valid bc = (true, []) <->
  (forall i, (1 <= i < List.length (ETLBlockchain.chain bc))%nat ->
             ETLBlockchain.check_block (ETLBlockchain.chain bc) i = None).
Proof.
  unfold ETLBlockchain.is_chain_valid. split.
  - intros H i Hi. apply scan_true_inv in H. apply H. lia.
  - intros H. apply scan_all. intros j Hj. apply H. lia.
Qed.

Lemma built_silent (bc : ETLBlockchain.t) :
  built bc ->
  ETLBlockchain.chain bc <> [] /\
  forall i, (1 <= i < List.length (ETLBlockchain.chain bc))%nat ->
            ETLBlockchain.check_block (ETLBlockchain.chain bc) i = None.
Proof.
  induction 1 as [fuel now_utc now bc H | fuel bc s1 s2 ds meta now_utc now bc' b _ IH H].
  - destruct (init_chain _ _ _ _ H) as (g & _ & Hc & _).
    rewrite Hc. split; [discriminate | simpl; intros; lia].
  - destruct IH as (Hne & Hc). unfold ETLBlockchain.add_etl_data_block in H.
    destruct (ETLBlockchain.get_latest_block bc) as [latest|] eqn:El; [|discriminate].
    destruct (Block.mine_block fuel _ _) as [mined|] eqn:Em; [|discriminate].
    injection H as <- <-. simpl.
    destruct (mined_fields _ _ _ _ (consistent_init _ _ _ _ _) Em) as (Hm & _ & _ & Hp & _).
    split; [destruct (ETLBlockchain.chain bc); discriminate|].
    apply (check_block_append _ latest); auto.
Qed.

(** C1. A chain made by the constructor, which creates and mines the
    genesis block, followed by any number of appends, each of which builds a
    block with index [len(chain)], the hash of the latest block as previous
    hash and nonce 0, mines it and appends it, is valid: [is_chain_valid]
    returns [True] and prints nothing. *)
Theorem built_chain_valid (bc : ETLBlockchain.t) :
  built bc -> ETLBlockchain.is_chain_valid bc = (true, []).
Proof.
  intros H. apply is_chain_valid_iff, built_silent, H.
Qed.

Lemma built_chain_valid_witness :
  built Example.chain3 /\ ETLBlockchain.is_chain_valid Example.chain3 = (true, []).
Proof.
  assert (H : built Example.chain3).
  { apply (built_add 1 Example.chain2 "ddd" "eee" "fff" Example.metadata2
             Example.utc2 Example.now2 Example.chain3 Example.block2).
    - apply (built_add 2 Example.chain1 "aaa" "bbb" "ccc" JNull
               Example.utc1 Example.now1 Example.chain2 Example.block1).
      + apply (built_init 1 Example.utc0 Example.now0). vm_compute. reflexivity.
      + vm_compute. reflexivity.
    - vm_compute. reflexivity. }
  split; [exact H | exact (built_chain_valid Example.chain3 H)].
Defined.

(** C4 as stated fails in its last part: the result of [is_chain_valid] is a
    bare [bool]. A chain that breaks at index 1 and one that breaks at
    index 2 return the same value; only the printed line differs. *)
Lemma is_chain_valid_result_is_bare_bool :
  fst (ETLBlockchain.is_chain_valid Example.chain3_bad1) = false /\
  fst (ETLBlockchain.is_chain_valid Example.chain3_bad2) = false /\
  snd (ETLBlockchain.is_chain_valid Example.chain3_bad1) = ["Invalid hash at block 1"] /\
  snd (ETLBlockchain.is_chain_valid Example.chain3_bad2) = ["Invalid hash at block 2"].
Proof. vm_compute. repeat split. Qed.

(** C4, amended. [is_chain_valid] visits the indices 1..N-1 in order. At
    the first index where the stored hash is not the recomputed one, or the
    previous hash is not the hash stored in the block before, it returns
    [False] and prints one line that names this index (the hash test comes
    first); when there is no such index, as in a chain of the genesis block
    alone, it returns [True] and prints nothing. The returned value itself
    is the boolean only. *)
Theorem is_chain_valid_first_failure (bc : ETLBlockchain.t) :
  let c := ETLBlockchain.chain bc in
  ((forall i, (1 <= i < List.length c)%nat -> fails_at c i = false) ->
     ETLBlockchain.is_chain_valid bc = (true, [])) /\
  ((List.length c <= 1)%nat -> ETLBlockchain.is_chain_valid bc = (true, [])) /\
  (forall i, (1 <= i < List.length c)%nat ->
     fails_at c i = true ->
     (forall j, (1 <= j < i)%nat -> fails_at c j = false) ->
     ETLBlockchain.is_chain_valid bc = (false, [failure_line c i])) /\
  (forall out, ETLBlockchain.is_chain_valid bc = (false, out) ->
     exists i, (1 <= i < List.length c)%nat /\ fails_at c i = true /\
               (forall j, (1 <= j < i)%nat -> fails_at c j = false) /\
               out = [failure_line c i]).
Proof.
  cbv zeta. unfold ETLBlockchain.is_chain_valid.
  generalize (ETLBlockchain.chain bc) as c. intros c.
  assert (Hall : (forall i, (1 <= i < List.length c)%nat -> fails_at c i = false) ->
                 ETLBlockchain.scan c (seq 1 (List.length c - 1)) = (true, [])).
  { intros H. apply scan_all. intros i Hi.
    rewrite check_block_fails_at, H by lia. reflexivity. }
  split; [exact Hall|]. split; [intros Hl; apply Hall; intros; lia|]. split.
  - intros i Hi Hf Hj.
    apply (scan_first c 1 _ i); [lia | |].
    + intros j Hr. rewrite check_block_fails_at, Hj by lia. reflexivity.
    + rewrite check_block_fails_at, Hf by lia. reflexivity.
  - intros out H.
    destruct (scan_false_inv _ _ _ _ H) as (i & Hi & Hj & Hc & Ho).
    exists i. rewrite check_block_fails_at in Hc by lia.
    destruct (fails_at c i) eqn:Ef; [|discriminate]. injection Hc as Hc.
    split; [lia|]. split; [reflexivity|]. split; [|rewrite Ho, Hc; reflexivity].
    intros j Hr. specialize (Hj j ltac:(lia)).
    rewrite check_block_fails_at in Hj by lia.
    destruct (fails_at c j); [discriminate | reflexivity].
Qed.

Lemma scan_ext (c c' : list Block.t) (l : list nat) :
  (forall j, In j l -> ETLBlockchain.check_block c' j = ETLBlockchain.check_block c j) ->
  ETLBlockchain.scan c' l = ETLBlockchain.scan c l.
Proof.
  induction l as [|i l IH]; intros H; simpl; [reflexivity|].
  rewrite H by (left; reflexivity).
  destruct (ETLBlockchain.check_block c i); [reflexivity|].
  apply IH. intros j Hj. apply H. right. exact Hj.
Qed.

(** From index 1 on the scan reads nothing of block 0 but its stored hash. *)
Lemma check_block_genesis (g g' : Block.t) (rest : list Block.t) (j : nat) :
  Block.hash g' = Block.hash g -> (1 <= j)%nat ->
  ETLBlockchain.check_block (g' :: rest) j = ETLBlockchain.check_block (g :: rest) j.
Proof.
  intros Hh Hj. unfold ETLBlockchain.check_block.
  destruct j as [|[|j]]; [lia | |]; simpl.
  - rewrite Hh. reflexivity.
  - reflexivity.
Qed.

Lemma is_chain_valid_genesis (g g' : Block.t) (rest : list Block.t) (d d' : Z) :
  Block.hash g' = Block.hash g ->
  ETLBlockchain.is_chain_valid (ETLBlockchain.mk (g' :: rest) d')
  = ETLBlockchain.is_chain_valid (ETLBlockchain.mk (g :: rest) d).
Proof.
  intros Hh. unfold ETLBlockchain.is_chain_valid. simpl.
  apply scan_ext. intros j Hj. apply in_seq in Hj.
  apply check_block_genesis; [exact Hh | lia].
Qed.

(** C10. When every block at an index [i >= 1] stores the recomputed hash
    and has the stored hash of block [i - 1] as previous hash,
    [is_chain_valid] returns [True]: nothing is asked of the proof of work,
    and of the genesis block only the stored hash is read, so its data,
    nonce, timestamp (and index and previous hash) do not matter to the
    result. *)
Theorem is_chain_valid_reads (bc : ETLBlockchain.t) (g g' : Block.t)
    (rest : list Block.t) :
  ETLBlockchain.chain bc = g :: rest ->
  Block.hash g' = Block.hash g ->
  ((forall i cur prev,
      (1 <= i)%nat ->
      nth_error (ETLBlockchain.chain bc) i = Some cur ->
      nth_error (ETLBlockchain.chain bc) (i - 1) = Some prev ->
      Block.hash cur = Block.calculate_hash cur /\
      Block.previous_hash cur = Block.hash prev) ->
   ETLBlockchain.is_chain_valid bc = (true, [])) /\
  (forall d', ETLBlockchain.is_chain_valid (ETLBlockchain.mk (g' :: rest) d')
              = ETLBlockchain.is_chain_valid bc).
Proof.
  intros Hc Hh. split.
  - intros H. apply is_chain_valid_iff. intros i Hi.
    unfold ETLBlockchain.check_block.
    destruct (nth_error (ETLBlockchain.chain bc) i) as [cur|] eqn:Ec; [|reflexivity].
    destruct (nth_error (ETLBlockchain.chain bc) (i - 1)) as [prev|] eqn:Ep; [|reflexivity].
    destruct (H i cur prev ltac:(lia) Ec Ep) as (H1 & H2).
    rewrite <- H1, H2, !String.eqb_refl. reflexivity.
  - intros d'. destruct bc as [c d]. simpl in Hc. subst c.
    apply is_chain_valid_genesis, Hh.
Qed.

(** A genesis block rewritten under its old stored hash, followed by a block
    that was never mined (its hash starts with [1d]). *)
Lemma is_chain_valid_reads_witness :
  ETLBlockchain.chain Example.chain2_unmined = [Example.forged_genesis; Example.unmined1] /\
  Block.hash Example.genesis = Block.hash Example.forged_genesis /\
  Block.sealed 1 Example.unmined1 = false /\
  ETLBlockchain.is_chain_valid Example.chain2_unmined = (true, []) /\
  ETLBlockchain.is_chain_valid (ETLBlockchain.mk [Example.genesis; Example.unmined1] 4)
  = ETLBlockchain.is_chain_valid Example.chain2_unmined.
Proof.
  split; [reflexivity|]. split; [reflexivity|]. split; [reflexivity|].
  destruct (is_chain_valid_reads Example.chain2_unmined Example.forged_genesis
              Example.genesis [Example.unmined1] eq_refl eq_refl) as (H1 & H2).
  split; [|exact (H2 4)].
  apply H1. intros i cur prev Hi Hc Hp.
  destruct i as [|[|i]]; [lia | | destruct i; discriminate].
  injection Hc as <-. injection Hp as <-. split; [vm_compute|]; reflexivity.
Defined.

(** ** Tampering *)

Lemma length_list_set (i : nat) (b : Block.t) (c : list Block.t) :
  List.length (list_set i b c) = List.length c.
Proof.
  revert i; induction c as [|x c IH]; intros [|i]; simpl; auto.
Qed.

Lemma nth_error_list_set_eq (i : nat) (b : Block.t) (c : list Block.t) :
  (i < List.length c)%nat -> nth_error (list_set i b c) i = Some b.
Proof.
  revert i; induction c as [|x c IH]; intros [|i] Hi; simpl in *; try lia; auto.
  apply IH. lia.
Qed.

Lemma nth_error_list_set_neq (i j : nat) (b : Block.t) (c : list Block.t) :
  i <> j -> nth_error (list_set i b c) j = nth_error c j.
Proof.
  revert i j; induction c as [|x c IH]; intros [|i] [|j] Hne; simpl; auto; try lia.
Qed.

(** A mutation that shows leaves a block whose stored hash is not the
    recomputed one. *)
Lemma shows_mismatch (m : mutation) (b : Block.t) :
  consistent b -> shows m b ->
  Block.hash (mutate m b) <> Block.calculate_hash (mutate m b).
Proof.
  unfold consistent. intros Hb Hs.
  destruct m as [z|d|s|x|n|h]; unfold shows in Hs.
  6: { change (h <> Block.calculate_hash b). rewrite <- Hb. exact Hs. }
  all: match goal with
       | |- Block.hash (mutate ?m ?x) <> _ =>
           change (Block.hash x <> Block.calculate_hash (mutate m x))
       end; rewrite Hb; intros E; apply Hs; symmetry; exact E.
Qed.

Lemma valid_block (bc : ETLBlockchain.t) (i : nat) (b : Block.t) :
  ETLBlockchain.is_chain_valid bc = (true, []) ->
  (1 <= i)%nat ->
  nth_error (ETLBlockchain.chain bc) i = Some b ->
  consistent b /\
  exists prev, nth_error (ETLBlockchain.chain bc) (i - 1) = Some prev /\
               Block.previous_hash b = Block.hash prev.
Proof.
  intros Hv Hi Hb.
  assert (Hlt : (i < List.length (ETLBlockchain.chain bc))%nat)
    by (apply nth_error_Some; congruence).
  pose proof (proj1 (is_chain_valid_iff bc) Hv i ltac:(lia)) as Hc.
  unfold ETLBlockchain.check_block in Hc. rewrite Hb in Hc.
  destruct (nth_error (ETLBlockchain.chain bc) (i - 1)) as [prev|] eqn:Ep.
  - destruct (Block.hash b =? Block.calculate_hash b)%string eqn:E1; [|discriminate].
    destruct (Block.previous_hash b =? Block.hash prev)%string eqn:E2; [|discriminate].
    apply String.eqb_eq in E1, E2. split; [exact E1 | eauto].
  - apply nth_error_None in Ep. lia.
Qed.

(** C3 as stated fails at index 0: the genesis block of the worked chain
    can be given another payload, nonce and timestamp, and the chain still
    validates. *)
Lemma genesis_tampering_undetected :
  ETLBlockchain.is_chain_valid Example.chain3 = (true, []) /\
  Block.data Example.forged_genesis <> Block.data Example.genesis /\
  Block.nonce Example.forged_genesis <> Block.nonce Example.genesis /\
  Block.timestamp Example.forged_genesis <> Block.timestamp Example.genesis /\
  nth_error (ETLBlockchain.chain Example.chain3_forged) 1
  = nth_error (ETLBlockchain.chain Example.chain3) 1 /\
  ETLBlockchain.is_chain_valid Example.chain3_forged = (true, []).
Proof.
  assert (H : ETLBlockchain.is_chain_valid Example.chain3 = (true, []))
    by (vm_compute; reflexivity).
  split; [exact H|]. split; [discriminate|]. split; [discriminate|].
  split; [discriminate|]. split; [reflexivity|].
  rewrite <- H. apply is_chain_valid_genesis. reflexivity.
Qed.

(** C3, amended. In a valid chain, assigning to a field of a block at an
    index [i >= 1], the other blocks left as they are, makes
    [is_chain_valid] return [False] at index [i] as soon as the assignment
    shows: a new stored hash, or a new value of a hashed field under which
    the recomputed hash changes (it does, short of a SHA-256 collision). For
    the genesis block only a new stored hash is caught, at index 1, when
    there is a block 1; assignments to its other fields leave the result
    [True]. *)
Theorem tamper_detected (bc : ETLBlockchain.t) (i : nat) (b : Block.t) (m : mutation) :
  ETLBlockchain.is_chain_valid bc = (true, []) ->
  nth_error (ETLBlockchain.chain bc) i = Some b ->
  ((1 <= i)%nat -> shows m b ->
   ETLBlockchain.is_chain_valid (set_block i (mutate m b) bc)
   = (false, [append "Invalid hash at block " (Py.str_int (Z.of_nat i))])) /\
  (i = O -> Block.hash (mutate m b) <> Block.hash b ->
   (2 <= List.length (ETLBlockchain.chain bc))%nat ->
   ETLBlockchain.is_chain_valid (set_block i (mutate m b) bc)
   = (false, ["Invalid previous hash at block 1"])) /\
  (i = O -> Block.hash (mutate m b) = Block.hash b ->
   ETLBlockchain.is_chain_valid (set_block i (mutate m b) bc) = (true, [])).
Proof.
  intros Hv Hb.
  assert (Hlt : (i < List.length (ETLBlockchain.chain bc))%nat)
    by (apply nth_error_Some; congruence).
  split; [|split].
  - intros Hi Hs. destruct (valid_block bc i b Hv Hi Hb) as (Hcb & prev & Hp & _).
    unfold ETLBlockchain.is_chain_valid, set_block. simpl.
    rewrite length_list_set.
    apply (scan_first _ 1 _ i); [lia | |].
    + intros j Hj. unfold ETLBlockchain.check_block.
      rewrite !nth_error_list_set_neq by lia.
      apply (proj1 (is_chain_valid_iff bc) Hv). lia.
    + unfold ETLBlockchain.check_block.
      rewrite nth_error_list_set_eq by lia.
      rewrite nth_error_list_set_neq, Hp by lia.
      pose proof (shows_mismatch m b Hcb Hs) as Hm.
      apply String.eqb_neq in Hm. rewrite Hm. reflexivity.
  - intros -> Hh Hl. destruct bc as [c d]. simpl in *.
    destruct c as [|g [|b1 rest]]; simpl in Hl; try lia.
    injection Hb as ->.
    destruct (valid_block (ETLBlockchain.mk (b :: b1 :: rest) d) 1 b1 Hv
                ltac:(lia) eq_refl) as (Hc1 & prev & Hp & Hlink).
    injection Hp as <-.
    unfold ETLBlockchain.is_chain_valid, set_block. simpl ETLBlockchain.chain.
    simpl list_set. simpl List.length.
    apply (scan_first _ 1 _ 1); [lia | intros; lia |].
    unfold ETLBlockchain.check_block. simpl nth_error. unfold consistent in Hc1.
    cbv beta iota.
    rewrite <- Hc1, String.eqb_refl. simpl negb. cbv beta iota.
    assert (E : (Block.previous_hash b1 =? Block.hash (mutate m b))%string = false).
    { apply String.eqb_neq. rewrite Hlink. intros E. apply Hh. symmetry. exact E. }
    rewrite E. reflexivity.
  - intros -> Hh. destruct bc as [c d]. simpl in *.
    destruct c as [|g rest]; [discriminate|]. injection Hb as ->.
    rewrite <- Hv. unfold set_block. simpl.
    apply is_chain_valid_genesis, Hh.
Qed.

Lemma tamper_detected_witness :
  ETLBlockchain.is_chain_valid Example.chain3 = (true, []) /\
  nth_error (ETLBlockchain.chain Example.chain3) 1 = Some Example.block1 /\
  shows (SetNonce 3) Example.block1 /\
  ETLBlockchain.is_chain_valid Example.chain3_bad1 = (false, ["Invalid hash at block 1"]).
Proof.
  assert (Hv : ETLBlockchain.is_chain_valid Example.chain3 = (true, []))
    by (vm_compute; reflexivity).
  assert (Hs : shows (SetNonce 3) Example.block1)
    by (intros E; vm_compute in E; discriminate).
  split; [exact Hv|]. split; [reflexivity|]. split; [exact Hs|].
  exact (proj1 (tamper_detected Example.chain3 1 Example.block1 (SetNonce 3) Hv eq_refl)
           ltac:(lia) Hs).
Defined.

(** ** Saving and loading *)

(** What the loop of [load_blockchain] makes of a saved block: the block
    itself, except that a falsy timestamp gives way to the clock. *)
Lemma load_block_to_dict (b : Block.t) (now : Py.float) :
  ETLBlockchain.load_block (Block.to_dict b) now
  = Some (if Py.float_truthy (Block.timestamp b) then b
          else Block.mk (Block.index b) (Block.data b) (Block.previous_hash b) now
                 (Block.nonce b) (Block.hash b)).
Proof.
  destruct b as [i d p ts n h]. unfold ETLBlockchain.load_block, Block.to_dict.
  cbn [lookup String.eqb Ascii.eqb Bool.eqb fst snd Block.index Block.data
       Block.previous_hash Block.timestamp Block.nonce Block.hash andb].
  unfold Block.init, Block.set_hash, Block.set_nonce. simpl.
  destruct (Py.float_truthy ts); reflexivity.
Qed.

Lemma load_blocks_to_dict (c : list Block.t) (k : nat) (clock : nat -> Py.float) :
  Forall (fun b => Py.float_truthy (Block.timestamp b) = true) c ->
  ETLBlockchain.load_blocks (map Block.to_dict c) k clock = Some c.
Proof.
  intros H; revert k; induction H as [|b c Hb _ IH]; intros k; [reflexivity|].
  cbn [map ETLBlockchain.load_blocks].
  rewrite load_block_to_dict, Hb, IH. reflexivity.
Qed.

(** Where every timestamp is truthy (not 0.0), loading what was saved gives
    the same blocks back, field by field, nonce and hash included, and the
    same verdict of [is_chain_valid]. *)
Lemma load_save_truthy (self bc : ETLBlockchain.t) (now_utc : string)
    (clock : nat -> Py.float) :
  Forall (fun b => Py.float_truthy (Block.timestamp b) = true) (ETLBlockchain.chain bc) ->
  exists bc',
    ETLBlockchain.load_blockchain self (ETLBlockchain.save_blockchain bc now_utc) clock
    = Some bc' /\
    ETLBlockchain.chain bc' = ETLBlockchain.chain bc /\
    ETLBlockchain.is_chain_valid bc' = ETLBlockchain.is_chain_valid bc.
Proof.
  intros H. unfold ETLBlockchain.load_blockchain, ETLBlockchain.save_blockchain.
  cbn [lookup String.eqb Ascii.eqb Bool.eqb andb].
  rewrite load_blocks_to_dict by exact H.
  eexists. split; [reflexivity|]. split; reflexivity.
Qed.

(** C5 at the failing input: a valid chain whose block 1 carries the
    timestamp 0.0 is saved and loaded while the clock reads 1735787942.25.
    The loaded block 1 has the clock reading as its timestamp, under the
    stored nonce and hash, and the loaded chain is no longer valid. *)
Theorem load_replaces_zero_timestamp :
  ETLBlockchain.is_chain_valid Example.chain2_epoch = (true, []) /\
  exists bc',
    ETLBlockchain.load_blockchain Example.chain1
      (ETLBlockchain.save_blockchain Example.chain2_epoch Example.utc2)
      (fun _ => Example.now1) = Some bc' /\
    map Block.timestamp (ETLBlockchain.chain Example.chain2_epoch)
    = [Example.now0; S754_zero false] /\
    map Block.timestamp (ETLBlockchain.chain bc') = [Example.now0; Example.now1] /\
    map Block.hash (ETLBlockchain.chain bc')
    = map Block.hash (ETLBlockchain.chain Example.chain2_epoch) /\
    ETLBlockchain.is_chain_valid bc' = (false, ["Invalid hash at block 1"]).
Proof.
  split; [vm_compute; reflexivity|].
  eexists. split; [vm_compute; reflexivity|].
  split; [reflexivity|]. split; [reflexivity|]. split; [reflexivity|].
  vm_compute. reflexivity.
Qed.

(** ** The order of [str] *)

Lemma ascii_compare_lt_trans (a b c : ascii) :
  Ascii.compare a b = Lt -> Ascii.compare b c = Lt -> Ascii.compare a c = Lt.
Proof.
  unfold Ascii.compare. rewrite !N.compare_lt_iff. apply N.lt_trans.
Qed.

Lemma ascii_compare_eq (a b : ascii) : Ascii.compare a b = Eq -> a = b.
Proof. apply Ascii.compare_eq_iff. Qed.

Lemma string_compare_lt_trans (x y z : string) :
  String.compare x y = Lt -> String.compare y z = Lt -> String.compare x z = Lt.
Proof.
  revert y z; induction x as [|a x IH]; intros [|b y] [|c z]; simpl; try congruence.
  destruct (Ascii.compare a b) eqn:Eab; try discriminate;
    destruct (Ascii.compare b c) eqn:Ebc; try discriminate; intros H1 H2.
  - apply ascii_compare_eq in Eab, Ebc. subst.
    assert (E : Ascii.compare c c = Eq) by (unfold Ascii.compare; apply N.compare_refl).
    rewrite E. eapply IH; eassumption.
  - apply ascii_compare_eq in Eab. subst. rewrite Ebc. reflexivity.
  - apply ascii_compare_eq in Ebc. subst. rewrite Eab. reflexivity.
  - rewrite (ascii_compare_lt_trans _ _ _ Eab Ebc). reflexivity.
Qed.

Lemma string_ltb_lt (x y : string) : String.ltb x y = true <-> String.compare x y = Lt.
Proof. unfold String.ltb. destruct (String.compare x y); simpl; split; congruence. Qed.

Lemma string_ltb_asym (x y : string) : String.ltb x y = true -> String.ltb y x = false.
Proof.
  unfold String.ltb. rewrite (String.compare_antisym y x).
  destruct (String.compare x y); simpl; congruence.
Qed.

Lemma string_ltb_total (x y : string) :
  String.ltb x y = false -> String.ltb y x = false -> x = y.
Proof.
  unfold String.ltb. rewrite (String.compare_antisym y x).
  destruct (String.compare x y) eqn:E; simpl; try congruence.
  intros _ _. apply String.compare_eq_iff, E.
Qed.

Lemma string_ltb_trans (x y z : string) :
  String.ltb x y = true -> String.ltb y z = true -> String.ltb x z = true.
Proof. rewrite !string_ltb_lt. apply string_compare_lt_trans. Qed.

(** ** The stable sort under a strict total order *)

Section StrictSort.

Context {A : Type} (ltb : A -> A -> bool).
Hypothesis asym : forall x y, ltb x y = true -> ltb y x = false.
Hypothesis total : forall x y, ltb x y = false -> ltb y x = false -> x = y.
Hypothesis trans : forall x y z, ltb x y = true -> ltb y z = true -> ltb x z = true.

Lemma insert_insert (x y : A) (l : list A) :
  Py.insert ltb x (Py.insert ltb y l) = Py.insert ltb y (Py.insert ltb x l).
Proof.
  induction l as [|z l IH]; simpl.
  - destruct (ltb y x) eqn:Eyx, (ltb x y) eqn:Exy; try reflexivity.
    + rewrite (asym _ _ Eyx) in Exy. discriminate.
    + rewrite (total _ _ Exy Eyx). reflexivity.
  - destruct (ltb z y) eqn:Ezy, (ltb z x) eqn:Ezx; simpl; rewrite ?Ezy, ?Ezx.
    + rewrite IH. reflexivity.
    + destruct (ltb x y) eqn:Exy; [simpl; rewrite ?Ezy; reflexivity|].
      destruct (ltb y x) eqn:Eyx.
      * rewrite (trans _ _ _ Ezy Eyx) in Ezx. discriminate.
      * rewrite (total _ _ Exy Eyx) in Ezx. congruence.
    + destruct (ltb y x) eqn:Eyx; [simpl; rewrite ?Ezx; reflexivity|].
      destruct (ltb x y) eqn:Exy.
      * rewrite (trans _ _ _ Ezx Exy) in Ezy. discriminate.
      * rewrite (total _ _ Exy Eyx) in Ezx. congruence.
    + destruct (ltb y x) eqn:Eyx, (ltb x y) eqn:Exy; simpl; rewrite ?Ezy, ?Ezx;
        try reflexivity.
      * rewrite (asym _ _ Eyx) in Exy. discriminate.
      * rewrite (total _ _ Exy Eyx). reflexivity.
Qed.

(** The sorted list depends on the elements only, not on their order. *)
Lemma stable_sort_permutation (l l' : list A) :
  Permutation l l' -> Py.stable_sort ltb l = Py.stable_sort ltb l'.
Proof.
  induction 1; simpl; try congruence. apply insert_insert.
Qed.

End StrictSort.

Lemma sorted_permutation (l l' : list string) :
  Permutation l l' -> ETL.sorted l = ETL.sorted l'.
Proof.
  apply stable_sort_permutation;
    [exact string_ltb_asym | exact string_ltb_total | exact string_ltb_trans].
Qed.

(** ** The canonical CSV *)

Lemma existsb_eqb_in (x : string) (l : list string) :
  existsb (String.eqb x) l = true <-> In x l.
Proof.
  rewrite existsb_exists. split.
  - intros (y & Hy & E). apply String.eqb_eq in E. subst. exact Hy.
  - intros H. exists x. split; [exact H | apply String.eqb_refl].
Qed.

Lemma has_duplicates_NoDup (l : list string) :
  ETL.has_duplicates l = false <-> NoDup l.
Proof.
  induction l as [|x l IH]; simpl.
  - split; [constructor | reflexivity].
  - rewrite orb_false_iff, IH. split.
    + intros (Hx & Hl). constructor; [|exact Hl].
      intros Hin. apply existsb_eqb_in in Hin. congruence.
    + intros H. inversion H as [|? ? Hx Hl]; subst. split; [|exact Hl].
      destruct (existsb (String.eqb x) l) eqn:E; [|reflexivity].
      apply existsb_eqb_in in E. contradiction.
Qed.

Lemma concat_single (s : string) : String.concat EmptyString [s] = s.
Proof. reflexivity. Qed.

(** With no rows, the canonical bytes are the header row of the sorted
    labels. *)
Lemma deterministic_csv_bytes_no_rows (cols : list string) :
  NoDup cols ->
  ETL.deterministic_csv_bytes (ETL.mkdf cols [])
  = Some (Py.encode (ETL.csv_row (ETL.sorted cols))).
Proof.
  intros H. unfold ETL.deterministic_csv_bytes, ETL.reindex_columns.
  cbn [ETL.columns ETL.rows map].
  rewrite (proj2 (has_duplicates_NoDup cols) H).
  cbn [ETL.columns]. destruct (ETL.sorted cols) as [|x l]; reflexivity.
Qed.

(** C9 as stated fails in its parenthesis: with no rows and no columns the
    canonical form is the line terminator, one byte, not an empty
    document. *)
Lemma empty_frame_is_one_newline :
  ETL.deterministic_csv_bytes Frames.empty = Some Frames.newline_only /\
  ETL.deterministic_csv_bytes Frames.empty <> Some EmptyString /\
  String.length Frames.newline_only = 1%nat.
Proof.
  split; [reflexivity|]. split; [discriminate | reflexivity].
Qed.

(** C9, amended. A frame with no rows canonicalizes to exactly the header
    line: the sorted column labels, separated by commas, and the line
    terminator; with no columns either this is the line terminator alone.
    The bytes, and so their SHA-256 digest, are the same in whatever order
    the columns come. *)
Theorem empty_frame_canonical (cols : list string) :
  NoDup cols ->
  ETL.deterministic_csv_bytes (ETL.mkdf cols [])
  = Some (Py.encode (ETL.csv_row (ETL.sorted cols))) /\
  (cols = [] ->
   ETL.deterministic_csv_bytes (ETL.mkdf cols []) = Some (String ETL.newline EmptyString)) /\
  (forall cols',
     Permutation cols cols' ->
     ETL.deterministic_csv_bytes (ETL.mkdf cols' [])
     = ETL.deterministic_csv_bytes (ETL.mkdf cols []) /\
     option_map ETL.sha256_bytes (ETL.deterministic_csv_bytes (ETL.mkdf cols' []))
     = option_map ETL.sha256_bytes (ETL.deterministic_csv_bytes (ETL.mkdf cols []))).
Proof.
  intros H. split; [apply deterministic_csv_bytes_no_rows, H|]. split.
  - intros ->. reflexivity.
  - intros cols' Hp.
    assert (E : ETL.deterministic_csv_bytes (ETL.mkdf cols' [])
                = ETL.deterministic_csv_bytes (ETL.mkdf cols [])).
    { rewrite !deterministic_csv_bytes_no_rows;
        [| exact H | apply (Permutation_NoDup Hp H)].
      rewrite (sorted_permutation cols cols' Hp). reflexivity. }
    split; [exact E | rewrite E; reflexivity].
Qed.

Lemma empty_frame_canonical_witness :
  NoDup ["b"; "a"] /\
  ETL.deterministic_csv_bytes Frames.empty_ba = Some (Frames.lines ["a,b"]) /\
  ETL.deterministic_csv_bytes (ETL.mkdf ["a"; "b"] [])
  = ETL.deterministic_csv_bytes Frames.empty_ba /\
  option_map ETL.sha256_bytes (ETL.deterministic_csv_bytes Frames.empty_ba)
  = Some "5be08c9684a1d25efcee09318204824278b08bbfb4aef973ffefd0b9d7478313".
Proof.
  assert (N : NoDup ["b"; "a"]).
  { constructor; [simpl; intros [E|[]]; discriminate|].
    constructor; [simpl; tauto | constructor]. }
  destruct (empty_frame_canonical ["b"; "a"] N) as (H1 & _ & H3).
  unfold Frames.empty_ba.
  split; [exact N|]. split; [rewrite H1; reflexivity|].
  split; [apply (H3 ["a"; "b"]), perm_swap|].
  vm_compute. reflexivity.
Defined.

(** C6 at the failing input: the rows 0.0, -0.0, 0.5 of a one-column frame
    and the same rows with the first two exchanged. The two zeros compare
    equal, the stable sort keeps them in the order they came in, and they
    print differently, so the canonical bytes differ. *)
Theorem zero_tie_breaks_row_order :
  ETL.columns Frames.D_shuffled = ETL.columns Frames.D /\
  Permutation (ETL.rows Frames.D) (ETL.rows Frames.D_shuffled) /\
  ETL.deterministic_csv_bytes Frames.D
  = Some (Frames.lines ["x"; "0.0"; "-0.0"; "0.5"]) /\
  ETL.deterministic_csv_bytes Frames.D_shuffled
  = Some (Frames.lines ["x"; "-0.0"; "0.0"; "0.5"]) /\
  ETL.deterministic_csv_bytes Frames.D_shuffled <> ETL.deterministic_csv_bytes Frames.D.
Proof.
  split; [reflexivity|]. split; [apply perm_swap|].
  split; [vm_compute; reflexivity|]. split; [vm_compute; reflexivity|].
  intros E. vm_compute in E. discriminate.
Qed.

(** * Further properties of the ledger *)

(** ** Mining at degenerate difficulties *)

Lemma substring_0_0 (s : string) : substring 0 0 s = EmptyString.
Proof. destruct s; reflexivity. Qed.

Lemma sealed_zero (b : Block.t) : Block.sealed 0 b = true.
Proof.
  unfold Block.sealed, Block.target, Py.str_repeat, Py.slice_to. simpl.
  replace (Z.to_nat (Z.min 0 (Z.of_nat (String.length (Block.hash b))))) with O by lia.
  rewrite substring_0_0. reflexivity.
Qed.

Lemma sealed_negative (d : Z) (b : Block.t) :
  d < 0 -> consistent b ->
  Block.sealed d b = (d <=? -64).
Proof.
  intros Hd Hb. unfold Block.sealed, Block.target, Py.str_repeat, Py.slice_to.
  assert (Hl : String.length (Block.hash b) = 64%nat).
  { rewrite Hb. unfold Block.calculate_hash. apply length_hexdigest. }
  rewrite Hl. destruct (d <? 0) eqn:E; [|apply Z.ltb_ge in E; lia].
  replace (Z.to_nat d) with O by lia. simpl repeat. simpl string_of_list_ascii.
  destruct (d <=? -64) eqn:E64.
  - apply Z.leb_le in E64. replace (Z.to_nat (Z.max 0 (Z.of_nat 64 + d))) with O by lia.
    rewrite substring_0_0. reflexivity.
  - apply Z.leb_gt in E64. apply String.eqb_neq. intros H.
    apply (f_equal String.length) in H. rewrite length_substring_min, Hl in H.
    change (String.length EmptyString) with O in H.
    change (Z.of_nat 64) with 64 in H. lia.
Qed.

(** X1. The loop test of [mine_block] compares [hash[:difficulty]] with
    ["0" * difficulty]. At difficulty 0, and at any difficulty of -64 or
    less, both are empty and the block comes back at once, unchanged; at a
    difficulty from -63 to -1 the target is empty but the slice is not, and
    the loop never ends. *)
Theorem mine_block_degenerate_difficulty (fuel : nat) (d : Z) (b : Block.t) :
  consistent b ->
  ((d = 0 \/ d <= -64) -> Block.mine_block fuel d b = Some b) /\
  (-64 < d < 0 -> Block.mine_block fuel d b = None).
Proof.
  intros Hb. split.
  - intros [-> | Hd].
    + destruct fuel; simpl; rewrite sealed_zero; reflexivity.
    + assert (E : Block.sealed d b = true).
      { rewrite sealed_negative by (lia || exact Hb). apply Z.leb_le. lia. }
      destruct fuel; simpl; rewrite E; reflexivity.
  - intros Hd. revert b Hb. induction fuel as [|fuel IH]; intros b Hb; simpl;
      rewrite sealed_negative by (lia || exact Hb);
      replace (d <=? -64) with false by (symmetry; apply Z.leb_gt; lia);
      [reflexivity|].
    apply IH. rewrite bump_at_nonce. apply consistent_at_nonce.
Qed.

Lemma mine_block_degenerate_difficulty_witness :
  consistent Example.fresh_genesis /\
  Block.mine_block 5 0 Example.fresh_genesis = Some Example.fresh_genesis /\
  Block.mine_block 5 (-64) Example.fresh_genesis = Some Example.fresh_genesis /\
  Block.mine_block 5 (-1) Example.fresh_genesis = None.
Proof.
  pose proof (consistent_init 0 (ETLBlockchain.genesis_data Example.utc0) "0" None
                Example.now0) as Hb.
  split; [exact Hb|].
  split; [apply (mine_block_degenerate_difficulty 5 0 _ Hb); left; reflexivity|].
  split; [apply (mine_block_degenerate_difficulty 5 (-64) _ Hb); right; lia|].
  apply (mine_block_degenerate_difficulty 5 (-1) _ Hb). lia.
Defined.

(** X2. A mined block is a fixed point of mining: [mine_block] called again
    on the result, at the same difficulty, returns it unchanged without an
    iteration, so sealing twice never moves the nonce. *)
Theorem mine_block_again (fuel fuel' : nat) (d : Z) (b b' : Block.t) :
  Block.mine_block fuel d b = Some b' ->
  Block.mine_block fuel' d b' = Some b'.
Proof.
  intros H. destruct (mine_block_run _ _ _ _ H) as (k & _ & _ & Hs & _).
  destruct fuel'; simpl; rewrite Hs; reflexivity.
Qed.

Lemma mine_block_again_witness :
  Block.mine_block 1 4 Example.fresh_genesis = Some Example.genesis /\
  Block.mine_block 0 4 Example.genesis = Some Example.genesis.
Proof.
  assert (H : Block.mine_block 1 4 Example.fresh_genesis = Some Example.genesis)
    by (vm_compute; reflexivity).
  split; [exact H | exact (mine_block_again 1 0 4 _ _ H)].
Defined.

(** ** Appending *)

Lemma mined_nonce (fuel : nat) (d : Z) (b b' : Block.t) :
  consistent b ->
  Block.mine_block fuel d b = Some b' ->
  Block.nonce b <= Block.nonce b' /\ Block.sealed d b' = true.
Proof.
  intros Hb H. destruct (mine_block_run _ _ _ _ H) as (k & _ & Hk & Hs & _).
  split; [|exact Hs]. rewrite Hk, iter_bump by exact Hb.
  destruct (at_nonce_fields b (Block.nonce b + Z.of_nat k)) as (_ & _ & _ & _ & -> & _).
  lia.
Qed.

Lemma get_latest_block_app (c : list Block.t) (b : Block.t) (d : Z) :
  ETLBlockchain.get_latest_block (ETLBlockchain.mk (c ++ [b]) d) = Some b.
Proof.
  unfold ETLBlockchain.get_latest_block. simpl.
  destruct c as [|x c]; [reflexivity|].
  change ((x :: c) ++ [b]) with (x :: (c ++ [b])). cbv iota. f_equal.
  apply last_last.
Qed.

Lemma timestamp_init_none idx dat prev now :
  Block.timestamp (Block.init idx dat prev None now) = now.
Proof. reflexivity. Qed.

(** The new block and chain of a call of [add_etl_data_block] that returns. *)
Lemma add_etl_data_block_fields (fuel : nat) (self self' : ETLBlockchain.t)
    (s1_hash s2_hash dataset_hash : string) (etl_metadata : json)
    (now_utc : string) (now : Py.float) (b : Block.t) :
  ETLBlockchain.add_etl_data_block fuel self s1_hash s2_hash dataset_hash
    etl_metadata now_utc now = Some (self', b) ->
  exists latest,
    ETLBlockchain.get_latest_block self = Some latest /\
    ETLBlockchain.chain self' = ETLBlockchain.chain self ++ [b] /\
    ETLBlockchain.difficulty self' = ETLBlockchain.difficulty self /\
    Block.index b = Z.of_nat (List.length (ETLBlockchain.chain self)) /\
    Block.previous_hash b = Block.hash latest /\
    0 <= Block.nonce b /\
    Block.hash b = Block.calculate_hash b /\
    Block.sealed (ETLBlockchain.difficulty self) b = true.
Proof.
  unfold ETLBlockchain.add_etl_data_block.
  destruct (ETLBlockchain.get_latest_block self) as [latest|]; [|discriminate].
  destruct (Block.mine_block fuel _ _) as [mined|] eqn:Em; [|discriminate].
  intros H; injection H as <- <-. exists latest. simpl.
  destruct (mined_fields _ _ _ _ (consistent_init _ _ _ _ _) Em)
    as (Hc & Hi & Hd & Hp & Ht).
  destruct (mined_nonce _ _ _ _ (consistent_init _ _ _ _ _) Em) as (Hn & Hs).
  destruct (init_fields (Z.of_nat (List.length (ETLBlockchain.chain self)))
              (ETLBlockchain.etl_data s1_hash s2_hash dataset_hash etl_metadata now_utc)
              (Block.hash latest) None now) as (Ei & Ed & Ep & En).
  rewrite Ei in Hi. rewrite Ep in Hp. rewrite En in Hn.
  repeat split; auto.
Qed.

(** X3. What a call of [add_etl_data_block] that returns has done: the chain
    has grown by exactly the returned block, at its end, and the difficulty
    is what it was; the block has the old length as index, the stored hash of
    the former latest block as previous hash, the clock reading as timestamp
    and the five-key ETL document as data; its stored hash is the recomputed
    one and passes the test of the chain's difficulty; and it is the new
    latest block. *)
Theorem add_etl_data_block_spec (fuel : nat) (self self' : ETLBlockchain.t)
    (s1_hash s2_hash dataset_hash : string) (etl_metadata : json)
    (now_utc : string) (now : Py.float) (b : Block.t) :
  ETLBlockchain.add_etl_data_block fuel self s1_hash s2_hash dataset_hash
    etl_metadata now_utc now = Some (self', b) ->
  exists latest,
    ETLBlockchain.get_latest_block self = Some latest /\
    ETLBlockchain.chain self' = ETLBlockchain.chain self ++ [b] /\
    ETLBlockchain.difficulty self' = ETLBlockchain.difficulty self /\
    Block.index b = Z.of_nat (List.length (ETLBlockchain.chain self)) /\
    Block.previous_hash b = Block.hash latest /\
    Block.timestamp b = now /\
    Block.data b
    = ETLBlockchain.etl_data s1_hash s2_hash dataset_hash etl_metadata now_utc /\
    0 <= Block.nonce b /\
    Block.hash b = Block.calculate_hash b /\
    Block.sealed (ETLBlockchain.difficulty self) b = true /\
    ETLBlockchain.get_latest_block self' = Some b.
Proof.
  unfold ETLBlockchain.add_etl_data_block.
  destruct (ETLBlockchain.get_latest_block self) as [latest|]; [|discriminate].
  destruct (Block.mine_block fuel _ _) as [mined|] eqn:Em; [|discriminate].
  intros H; injection H as <- <-. exists latest. simpl.
  destruct (mined_fields _ _ _ _ (consistent_init _ _ _ _ _) Em)
    as (Hc & Hi & Hd & Hp & Ht).
  destruct (mined_nonce _ _ _ _ (consistent_init _ _ _ _ _) Em) as (Hn & Hs).
  destruct (init_fields (Z.of_nat (List.length (ETLBlockchain.chain self)))
              (ETLBlockchain.etl_data s1_hash s2_hash dataset_hash etl_metadata now_utc)
              (Block.hash latest) None now) as (Ei & Ed & Ep & En).
  rewrite Ei in Hi. rewrite Ed in Hd. rewrite Ep in Hp. rewrite En in Hn.
  rewrite timestamp_init_none in Ht.
  repeat split; auto. apply get_latest_block_app.
Qed.

(** The worked chain is one the class builds; shared by the examples below. *)
Lemma built_chain1 : built Example.chain1.
Proof. apply (built_init 1 Example.utc0 Example.now0). vm_compute. reflexivity. Qed.

Lemma add_block1 :
  ETLBlockchain.add_etl_data_block 2 Example.chain1 "aaa" "bbb" "ccc" JNull
    Example.utc1 Example.now1 = Some (Example.chain2, Example.block1).
Proof. vm_compute. reflexivity. Qed.

Lemma add_block2 :
  ETLBlockchain.add_etl_data_block 1 Example.chain2 "ddd" "eee" "fff" Example.metadata2
    Example.utc2 Example.now2 = Some (Example.chain3, Example.block2).
Proof. vm_compute. reflexivity. Qed.

Lemma built_chain3 : built Example.chain3.
Proof.
  eapply built_add; [|exact add_block2].
  eapply built_add; [exact built_chain1 | exact add_block1].
Qed.

Lemma add_etl_data_block_spec_witness :
  ETLBlockchain.add_etl_data_block 2 Example.chain1 "aaa" "bbb" "ccc" JNull
    Example.utc1 Example.now1 = Some (Example.chain2, Example.block1) /\
  exists latest,
    ETLBlockchain.get_latest_block Example.chain1 = Some latest /\
    ETLBlockchain.chain Example.chain2 = ETLBlockchain.chain Example.chain1 ++ [Example.block1] /\
    ETLBlockchain.difficulty Example.chain2 = ETLBlockchain.difficulty Example.chain1 /\
    Block.index Example.block1 = Z.of_nat (List.length (ETLBlockchain.chain Example.chain1)) /\
    Block.previous_hash Example.block1 = Block.hash latest /\
    Block.timestamp Example.block1 = Example.now1 /\
    Block.data Example.block1
    = ETLBlockchain.etl_data "aaa" "bbb" "ccc" JNull Example.utc1 /\
    0 <= Block.nonce Example.block1 /\
    Block.hash Example.block1 = Block.calculate_hash Example.block1 /\
    Block.sealed (ETLBlockchain.difficulty Example.chain1) Example.block1 = true /\
    ETLBlockchain.get_latest_block Example.chain2 = Some Example.block1.
Proof.
  split; [exact add_block1|].
  exact (add_etl_data_block_spec 2 Example.chain1 Example.chain2 "aaa" "bbb" "ccc" JNull
           Example.utc1 Example.now1 Example.block1 add_block1).
Defined.

(** ** Invariants of the chains the class builds *)

Lemma nth_error_snoc (c : list Block.t) (b x : Block.t) (i : nat) :
  nth_error (c ++ [b]) i = Some x ->
  (nth_error c i = Some x) \/ (i = List.length c /\ x = b).
Proof.
  intros H. destruct (Nat.lt_ge_cases i (List.length c)) as [Hlt|Hge].
  - left. rewrite nth_error_app1 in H by exact Hlt. exact H.
  - right. rewrite nth_error_app2 in H by exact Hge.
    destruct (i - List.length c)%nat as [|k] eqn:E; simpl in H.
    + injection H as <-. split; [lia | reflexivity].
    + destruct k; discriminate.
Qed.

(** X4. In a chain made by the constructor and appends, the difficulty is 4,
    the first block has previous hash ["0"], and every block has its
    position as index, a non-negative nonce, a stored hash that is the
    recomputed one and that starts with four zeros; from the second block
    on, the previous hash is the stored hash of the block before. *)
Theorem built_chain_invariants (bc : ETLBlockchain.t) :
  built bc ->
  ETLBlockchain.difficulty bc = 4 /\
  (exists g rest, ETLBlockchain.chain bc = g :: rest /\ Block.previous_hash g = "0") /\
  (forall i b, nth_error (ETLBlockchain.chain bc) i = Some b ->
     Block.index b = Z.of_nat i /\ 0 <= Block.nonce b /\
     Block.hash b = Block.calculate_hash b /\ leading_zeros 4 (Block.hash b)) /\
  (forall i b prev, nth_error (ETLBlockchain.chain bc) (S i) = Some b ->
     nth_error (ETLBlockchain.chain bc) i = Some prev ->
     Block.previous_hash b = Block.hash prev).
Proof.
  induction 1 as [fuel now_utc now bc H | fuel bc s1 s2 ds meta now_utc now bc' b _ IH H].
  - destruct (init_chain _ _ _ _ H) as (g & Hm & Hc & Hd).
    destruct (mined_fields _ _ _ _ (consistent_init _ _ _ _ _) Hm)
      as (Hg & Hi & _ & Hp & _).
    destruct (mined_nonce _ _ _ _ (consistent_init _ _ _ _ _) Hm) as (Hn & Hs).
    destruct (init_fields 0 (ETLBlockchain.genesis_data now_utc) "0" None now)
      as (Ei & _ & Ep & En).
    rewrite Ei in Hi. rewrite Ep in Hp. rewrite En in Hn.
    split; [exact Hd|]. split; [exists g, []; auto|]. rewrite Hc. split.
    + intros [|i] x Hx; [|destruct i; discriminate]. injection Hx as <-.
      repeat split; auto. apply sealed_leading_zeros; [lia | exact Hs].
    + intros [|i] x prev Hx; discriminate.
  - destruct IH as (Hd & (g & rest & Hc & Hg) & Hall & Hlink).
    destruct (add_etl_data_block_fields _ _ _ _ _ _ _ _ _ _ H)
      as (latest & Hl & Hc' & Hd' & Hi & Hp & Hn & Hh & Hs).
    split; [congruence|]. split.
    + exists g, (rest ++ [b]). rewrite Hc', Hc. split; [reflexivity | exact Hg].
    + rewrite Hc'. split.
      * intros i x Hx. destruct (nth_error_snoc _ _ _ _ Hx) as [Hx' | (-> & ->)].
        -- apply Hall, Hx'.
        -- repeat split; auto. apply sealed_leading_zeros; [lia|].
           rewrite <- Hd. exact Hs.
      * intros i x prev Hx Hprev.
        destruct (nth_error_snoc _ _ _ _ Hx) as [Hx' | (Hi' & ->)].
        -- assert (Hlt : (i < List.length (ETLBlockchain.chain bc))%nat).
           { apply Nat.lt_succ_l. apply nth_error_Some. congruence. }
           rewrite nth_error_app1 in Hprev by exact Hlt. eapply Hlink; eassumption.
        -- rewrite nth_error_app1 in Hprev by lia. rewrite Hp. f_equal.
           unfold ETLBlockchain.get_latest_block in Hl.
           destruct (ETLBlockchain.chain bc) as [|y l] eqn:E; [discriminate|].
           injection Hl as <-. simpl in Hi'. injection Hi' as ->.
           rewrite nth_error_last in Hprev. congruence.
Qed.

Lemma built_chain_invariants_witness :
  built Example.chain3 /\
  ETLBlockchain.difficulty Example.chain3 = 4 /\
  (exists g rest, ETLBlockchain.chain Example.chain3 = g :: rest /\
                  Block.previous_hash g = "0") /\
  (forall i b, nth_error (ETLBlockchain.chain Example.chain3) i = Some b ->
     Block.index b = Z.of_nat i /\ 0 <= Block.nonce b /\
     Block.hash b = Block.calculate_hash b /\ leading_zeros 4 (Block.hash b)) /\
  (forall i b prev, nth_error (ETLBlockchain.chain Example.chain3) (S i) = Some b ->
     nth_error (ETLBlockchain.chain Example.chain3) i = Some prev ->
     Block.previous_hash b = Block.hash prev).
Proof.
  split; [exact built_chain3 | exact (built_chain_invariants Example.chain3 built_chain3)].
Defined.

(** ** Saving, then loading *)

Lemma load_blocks_saved (c : list Block.t) (k : nat) (clock : nat -> Py.float) :
  ETLBlockchain.load_blocks (map Block.to_dict c) k clock
  = Some (reloaded_chain k clock c).
Proof.
  revert k; induction c as [|b c IH]; intros k; [reflexivity|].
  cbn [map ETLBlockchain.load_blocks reloaded_chain].
  rewrite load_block_to_dict, IH. reflexivity.
Qed.

Lemma reloaded_chain_fields (k : nat) (clock : nat -> Py.float) (c : list Block.t) :
  map Block.index (reloaded_chain k clock c) = map Block.index c /\
  map Block.data (reloaded_chain k clock c) = map Block.data c /\
  map Block.previous_hash (reloaded_chain k clock c) = map Block.previous_hash c /\
  map Block.nonce (reloaded_chain k clock c) = map Block.nonce c /\
  map Block.hash (reloaded_chain k clock c) = map Block.hash c.
Proof.
  revert k; induction c as [|b c IH]; intros k; [repeat split|].
  destruct (IH (S k)) as (H1 & H2 & H3 & H4 & H5).
  cbn [map reloaded_chain]. rewrite H1, H2, H3, H4, H5.
  unfold reloaded. destruct (Py.float_truthy (Block.timestamp b)); repeat split.
Qed.

Lemma reloaded_chain_truthy (k : nat) (clock : nat -> Py.float) (c : list Block.t) :
  Forall (fun b => Py.float_truthy (Block.timestamp b) = true) c ->
  reloaded_chain k clock c = c.
Proof.
  intros H; revert k; induction H as [|b c Hb _ IH]; intros k; [reflexivity|].
  cbn [reloaded_chain]. unfold reloaded. rewrite Hb, IH. reflexivity.
Qed.

(** X5. Loading the document that [save_blockchain] produced replaces the
    chain by the saved blocks, taken in order, with index, data, previous
    hash, nonce and hash as stored (nothing is recomputed or checked), and
    with the timestamp as stored unless it is 0.0, where the clock reading
    of the load comes in. The difficulty stays that of the loading object;
    the saved one is not read. When no saved timestamp is 0.0 the chain
    comes back exactly, and with it the verdict of [is_chain_valid]. *)
Theorem load_save_chain (self bc : ETLBlockchain.t) (now_utc : string)
    (clock : nat -> Py.float) :
  let c' := reloaded_chain 0 clock (ETLBlockchain.chain bc) in
  ETLBlockchain.load_blockchain self (ETLBlockchain.save_blockchain bc now_utc) clock
  = Some (ETLBlockchain.mk c' (ETLBlockchain.difficulty self)) /\
  map Block.index c' = map Block.index (ETLBlockchain.chain bc) /\
  map Block.data c' = map Block.data (ETLBlockchain.chain bc) /\
  map Block.previous_hash c' = map Block.previous_hash (ETLBlockchain.chain bc) /\
  map Block.nonce c' = map Block.nonce (ETLBlockchain.chain bc) /\
  map Block.hash c' = map Block.hash (ETLBlockchain.chain bc) /\
  (Forall (fun b => Py.float_truthy (Block.timestamp b) = true) (ETLBlockchain.chain bc) ->
   c' = ETLBlockchain.chain bc /\
   ETLBlockchain.is_chain_valid (ETLBlockchain.mk c' (ETLBlockchain.difficulty self))
   = ETLBlockchain.is_chain_valid bc).
Proof.
  cbv zeta. split.
  - unfold ETLBlockchain.load_blockchain, ETLBlockchain.save_blockchain.
    cbn [lookup String.eqb Ascii.eqb Bool.eqb andb].
    rewrite load_blocks_saved. reflexivity.
  - destruct (reloaded_chain_fields 0 clock (ETLBlockchain.chain bc))
      as (H1 & H2 & H3 & H4 & H5).
    repeat (split; [assumption|]).
    intros H.
    rewrite (reloaded_chain_truthy 0 clock _ H).
    destruct bc; split; reflexivity.
Qed.

(** ** Validation and the shape of the chain *)

Lemma check_block_app (c extra : list Block.t) (i : nat) :
  (i < List.length c)%nat ->
  ETLBlockchain.check_block (c ++ extra) i = ETLBlockchain.check_block c i.
Proof.
  intros Hi. unfold ETLBlockchain.check_block.
  rewrite !nth_error_app1 by lia. reflexivity.
Qed.

(** X6. Validation reads a chain from the front and knows nothing of its
    length: every prefix of a valid chain is valid, so cutting blocks off the
    end is not detected; and once a chain fails, it fails with the same
    printed line whatever is appended to it. *)
Theorem is_chain_valid_append (bc : ETLBlockchain.t) (extra : list Block.t) (d : Z) :
  let longer := ETLBlockchain.mk (ETLBlockchain.chain bc ++ extra) d in
  (ETLBlockchain.is_chain_valid longer = (true, []) ->
   ETLBlockchain.is_chain_valid bc = (true, [])) /\
  (forall out, ETLBlockchain.is_chain_valid bc = (false, out) ->
               ETLBlockchain.is_chain_valid longer = (false, out)).
Proof.
  cbv zeta. split.
  - intros H. apply is_chain_valid_iff. intros i Hi.
    rewrite <- (check_block_app _ extra) by lia.
    apply (proj1 (is_chain_valid_iff _) H). simpl. rewrite length_app. lia.
  - intros out H. unfold ETLBlockchain.is_chain_valid in *. simpl.
    destruct (scan_false_inv _ _ _ _ H) as (i & Hi & Hj & Hc & ->).
    apply (scan_first _ 1 _ i).
    + rewrite length_app. lia.
    + intros j Hr. rewrite check_block_app by lia. apply Hj, Hr.
    + rewrite check_block_app by lia. exact Hc.
Qed.

Lemma length_remove_at (i : nat) (c : list Block.t) :
  (i < List.length c)%nat -> List.length (remove_at i c) = (List.length c - 1)%nat.
Proof.
  revert i; induction c as [|x c IH]; intros [|i] Hi; simpl in *; try lia.
  rewrite IH by lia. lia.
Qed.

Lemma nth_error_remove_at_lt (i j : nat) (c : list Block.t) :
  (j < i)%nat -> nth_error (remove_at i c) j = nth_error c j.
Proof.
  revert i j; induction c as [|x c IH]; intros [|i] [|j] H; simpl; auto; try lia.
  apply IH. lia.
Qed.

Lemma nth_error_remove_at_ge (i j : nat) (c : list Block.t) :
  (i <= j)%nat -> nth_error (remove_at i c) j = nth_error c (S j).
Proof.
  revert i j; induction c as [|x c IH]; intros i j H.
  - destruct i, j; reflexivity.
  - destruct i as [|i]; [reflexivity|].
    destruct j as [|j]; [lia|]. simpl. apply IH. lia.
Qed.

(** X7. Taking a block out of the middle of a valid chain is caught at the
    place of the gap: when block [i] (neither the first nor the last) is
    removed and its stored hash differs from that of block [i - 1],
    [is_chain_valid] returns [False] with the line "Invalid previous hash at
    block i". *)
Theorem removed_block_detected (bc : ETLBlockchain.t) (i : nat) (b prev : Block.t) :
  ETLBlockchain.is_chain_valid bc = (true, []) ->
  (1 <= i)%nat -> (S i < List.length (ETLBlockchain.chain bc))%nat ->
  nth_error (ETLBlockchain.chain bc) i = Some b ->
  nth_error (ETLBlockchain.chain bc) (i - 1) = Some prev ->
  Block.hash b <> Block.hash prev ->
  ETLBlockchain.is_chain_valid
    (ETLBlockchain.mk (remove_at i (ETLBlockchain.chain bc)) (ETLBlockchain.difficulty bc))
  = (false, [append "Invalid previous hash at block " (Py.str_int (Z.of_nat i))]).
Proof.
  intros Hv Hi Hl Hb Hp Hne.
  destruct (nth_error (ETLBlockchain.chain bc) (S i)) as [next|] eqn:En;
    [|apply nth_error_None in En; lia].
  destruct (valid_block bc (S i) next Hv ltac:(lia) En) as (Hcn & b0 & Hb0 & Hlink).
  replace (S i - 1)%nat with i in Hb0 by lia. rewrite Hb in Hb0. injection Hb0 as <-.
  unfold ETLBlockchain.is_chain_valid. simpl. rewrite length_remove_at by lia.
  apply (scan_first _ 1 _ i); [lia | |].
  - intros j Hj. unfold ETLBlockchain.check_block.
    rewrite !nth_error_remove_at_lt by lia.
    apply (proj1 (is_chain_valid_iff bc) Hv). lia.
  - unfold ETLBlockchain.check_block.
    rewrite nth_error_remove_at_ge, En by lia.
    rewrite nth_error_remove_at_lt, Hp by lia.
    unfold consistent in Hcn. rewrite <- Hcn, String.eqb_refl. simpl negb. cbv iota.
    assert (E : (Block.previous_hash next =? Block.hash prev)%string = false).
    { apply String.eqb_neq. rewrite Hlink. exact Hne. }
    rewrite E. reflexivity.
Qed.

Lemma chain3_valid : ETLBlockchain.is_chain_valid Example.chain3 = (true, []).
Proof. apply is_chain_valid_iff, built_silent, built_chain3. Qed.

Lemma removed_block_detected_witness :
  ETLBlockchain.is_chain_valid Example.chain3 = (true, []) /\
  Block.hash Example.block1 <> Block.hash Example.genesis /\
  ETLBlockchain.is_chain_valid
    (ETLBlockchain.mk [Example.genesis; Example.block2] 4)
  = (false, ["Invalid previous hash at block 1"]).
Proof.
  assert (Hne : Block.hash Example.block1 <> Block.hash Example.genesis) by discriminate.
  split; [exact chain3_valid|]. split; [exact Hne|].
  exact (removed_block_detected Example.chain3 1 Example.block1 Example.genesis
           chain3_valid ltac:(lia) ltac:(simpl; lia) eq_refl eq_refl Hne).
Defined.

(** ** From the ETL ledger to a block *)

Lemma last_item_snoc (l : list json) (e : json) :
  PyOps.last_item (JList (l ++ [e])) = Return e.
Proof.
  unfold PyOps.last_item. destruct l as [|x l]; [reflexivity|].
  change ((x :: l) ++ [e]) with (x :: (l ++ [e])). cbv iota. f_equal.
  apply last_last.
Qed.

(** X9. [add_block_from_ledger] reads the last entry of the ledger and
    nothing else of it, so two ledgers that end in the same entry give the
    same call; with no ledger file it raises [FileNotFoundError] and with an
    empty ledger [IndexError], whatever the chain. *)
Theorem add_block_from_ledger_latest (fuel : nat) (self : ETLBlockchain.t)
    (l : list json) (e : json) (now_utc : string) (now : Py.float) :
  Ledger.add_block_from_ledger fuel self (Ledger.Doc (JList (l ++ [e]))) now_utc now
  = Ledger.add_block_from_ledger fuel self (Ledger.Doc (JList [e])) now_utc now /\
  Ledger.add_block_from_ledger fuel self (Ledger.Doc (JList [])) now_utc now
  = Raise IndexError /\
  Ledger.add_block_from_ledger fuel self Ledger.Absent now_utc now
  = Raise FileNotFoundError.
Proof.
  split; [|split; reflexivity].
  unfold Ledger.add_block_from_ledger.
  rewrite (last_item_snoc l e). reflexivity.
Qed.

(** X10. The ledger that [etl] writes and the block that
    [add_block_from_ledger] makes of it. After a run on the inputs [csv1]
    and [csv2], the block's hash for ["s1.csv"] is the extraction hash of the
    first input whose path contains that name, and likewise for ["s2.csv"];
    the dataset hash and the run's paths, settings, row and column counts
    and timestamp go into the block as recorded. When no input path contains
    one of the two names the call raises [StopIteration] and adds nothing. *)
Theorem add_block_from_etl_ledger (fuel : nat) (self : ETLBlockchain.t)
    (existing : Ledger.file) (doc : json)
    (timestamp_utc csv1 csv2 h1 h2 mode : string) (join_key : option string)
    (date_columns : option (list string)) (rows cols : Z) (output dataset_hash : string)
    (now_utc : string) (now : Py.float) :
  Ledger.updated_ledger existing
    (Ledger.ledger_entry timestamp_utc csv1 csv2 h1 h2 mode join_key date_columns
       rows cols output dataset_hash) = Return doc ->
  Ledger.add_block_from_ledger fuel self (Ledger.Doc doc) now_utc now
  = match pick_hash "s1.csv" csv1 csv2 h1 h2, pick_hash "s2.csv" csv1 csv2 h1 h2 with
    | Some s1, Some s2 =>
        Ledger.call_add_etl_data_block fuel self s1 s2 dataset_hash
          (run_metadata timestamp_utc csv1 csv2 mode join_key date_columns rows cols)
          now_utc now
    | _, _ => Raise StopIteration
    end.
Proof.
  intros H.
  assert (exists l, doc = JList (l ++ [Ledger.ledger_entry timestamp_utc csv1 csv2 h1 h2
                                         mode join_key date_columns rows cols output
                                         dataset_hash])) as (l & ->).
  { unfold Ledger.updated_ledger in H.
    destruct existing as [| |v]; try (injection H as <-; exists []; reflexivity).
    destruct v; try discriminate. injection H as <-. eexists. reflexivity. }
  unfold Ledger.add_block_from_ledger. rewrite last_item_snoc.
  unfold pick_hash, Ledger.ledger_entry, Ledger.etl_metadata_of, run_metadata.
  cbn [bind PyOps.subscript PyOps.iterate lookup String.eqb Ascii.eqb Bool.eqb andb
       Ledger.first_sha256 PyOps.str_in PyOps.as_str].
  destruct (PyOps.contains "s1.csv" csv1);
    destruct (PyOps.contains "s2.csv" csv1);
    destruct (PyOps.contains "s1.csv" csv2);
    destruct (PyOps.contains "s2.csv" csv2);
    cbn [bind PyOps.subscript lookup String.eqb Ascii.eqb Bool.eqb andb PyOps.as_str];
    reflexivity.
Qed.

Lemma add_block_from_etl_ledger_witness :
  Ledger.updated_ledger Ledger.Garbled
    (Ledger.ledger_entry "2025-01-02T00:00:00Z" "in/s1.csv" "in/s2.csv" "aaa" "bbb"
       "union" None None 3 2 "output/clean.csv" "ccc")
  = Return (JList [Ledger.ledger_entry "2025-01-02T00:00:00Z" "in/s1.csv" "in/s2.csv"
                     "aaa" "bbb" "union" None None 3 2 "output/clean.csv" "ccc"]) /\
  pick_hash "s1.csv" "in/s1.csv" "in/s2.csv" "aaa" "bbb" = Some "aaa" /\
  pick_hash "s2.csv" "in/s1.csv" "in/s2.csv" "aaa" "bbb" = Some "bbb" /\
  Ledger.add_block_from_ledger 2 Example.chain1
    (Ledger.Doc (JList [Ledger.ledger_entry "2025-01-02T00:00:00Z" "in/s1.csv" "in/s2.csv"
                          "aaa" "bbb" "union" None None 3 2 "output/clean.csv" "ccc"]))
    Example.utc1 Example.now1
  = Ledger.call_add_etl_data_block 2 Example.chain1 "aaa" "bbb" "ccc"
      (run_metadata "2025-01-02T00:00:00Z" "in/s1.csv" "in/s2.csv" "union" None None 3 2)
      Example.utc1 Example.now1.
Proof.
  split; [reflexivity|]. split; [reflexivity|]. split; [reflexivity|].
  exact (add_block_from_etl_ledger 2 Example.chain1 Ledger.Garbled _
           "2025-01-02T00:00:00Z" "in/s1.csv" "in/s2.csv" "aaa" "bbb" "union" None None
           3 2 "output/clean.csv" "ccc" Example.utc1 Example.now1 eq_refl).
Defined.

(** ** Hashing a file in chunks *)

Lemma append_empty_r (s : string) : append s EmptyString = s.
Proof. induction s; simpl; congruence. Qed.

Lemma append_assoc' (a b c : string) : append (append a b) c = append a (append b c).
Proof. induction a; simpl; congruence. Qed.

Lemma take_drop (n : nat) (s : string) :
  append (substring 0 n s) (Extract.drop n s) = s.
Proof.
  revert s; induction n as [|n IH]; intros [|c s]; simpl; try reflexivity.
  rewrite IH. reflexivity.
Qed.

Lemma length_drop (n : nat) (s : string) :
  String.length (Extract.drop n s) = (String.length s - n)%nat.
Proof.
  revert s; induction n as [|n IH]; intros [|c s]; simpl; try lia. apply IH.
Qed.

Lemma take_empty_iff (n : nat) (s : string) :
  (0 < n)%nat -> (substring 0 n s = EmptyString <-> s = EmptyString).
Proof.
  intros Hn. destruct n as [|n]; [lia|]. destruct s; simpl; split; congruence.
Qed.

(** With a positive chunk size that can be allocated, or with [-1], the
    loop feeds the hasher every byte that is left, in order. *)
Lemma read_loop_all (heap : N) (fuel : nat) (chunk_size : Z) (rest : string)
    (h : Extract.hasher) :
  0 < chunk_size <= Z.min (Z.of_N heap) (2 ^ 63 - 34) \/ chunk_size = -1 ->
  (String.length rest < fuel)%nat ->
  Extract.read_loop heap fuel chunk_size rest h
  = Return (Extract.mkhasher (append (Extract.fed h) rest)).
Proof.
  intros Hc. revert rest h; induction fuel as [|fuel IH]; intros rest h Hf; [lia|].
  assert (E0 : (chunk_size <? - 2 ^ 63) || (2 ^ 63 <=? chunk_size) = false).
  { apply orb_false_iff. split; [apply Z.ltb_ge | apply Z.leb_gt]; lia. }
  assert (E1 : (chunk_size <? -1) = false) by (apply Z.ltb_ge; lia).
  cbn [Extract.read_loop]. unfold Extract.read. rewrite E0, E1.
  destruct (chunk_size <? 0) eqn:E; cbn [bind fst snd].
  - destruct (String.eqb rest EmptyString) eqn:Er.
    + apply String.eqb_eq in Er. subst. rewrite append_empty_r. destruct h; reflexivity.
    + destruct fuel as [|fuel]; [reflexivity|].
      cbn [Extract.read_loop]. unfold Extract.read. rewrite E0, E1, E. cbn [bind fst snd].
      rewrite String.eqb_refl. reflexivity.
  - apply Z.ltb_ge in E.
    assert (E2 : (2 ^ 63 - 34 <? chunk_size) = false) by (apply Z.ltb_ge; lia).
    assert (E3 : (Z.of_N heap <? chunk_size) = false) by (apply Z.ltb_ge; lia).
    rewrite E2, E3. cbn [bind fst snd].
    destruct (String.eqb (substring 0 (Z.to_nat chunk_size) rest) EmptyString) eqn:Er.
    + apply String.eqb_eq in Er. apply take_empty_iff in Er; [|lia]. subst.
      rewrite append_empty_r. destruct h; reflexivity.
    + rewrite IH.
      * unfold Extract.update. cbn [Extract.fed].
        rewrite append_assoc', take_drop. reflexivity.
      * rewrite length_drop. apply String.eqb_neq in Er.
        destruct rest as [|a rest]; [destruct (Z.to_nat chunk_size); contradiction|].
        change (String.length (String a rest)) with (S (String.length rest)) in *. lia.
Qed.

(** X11. [sha256_file] reads the file in chunks and feeds them to one
    hasher. For every positive chunk size that the machine can allocate,
    and for [-1] (which reads the file in one go), the digest is that of
    the whole content, the same that [sha256_bytes(read_raw_bytes(path))]
    gives. With chunk size 0 the first read is empty, the loop ends at
    once, and the digest is that of the empty input whatever the file
    holds. Every other chunk size makes the first read raise, whatever the
    file holds: [ValueError] below [-1], [OverflowError] outside the index
    type (64 bits) or above the largest bytes object, [MemoryError] for a
    size in between that the machine cannot give. A missing file raises
    [FileNotFoundError] in both functions, whatever the chunk size. *)
Theorem sha256_file_chunks (heap : N) (content : string) (chunk_size : Z) :
  (0 < chunk_size <= Z.min (Z.of_N heap) (2 ^ 63 - 34) \/ chunk_size = -1 ->
   Extract.sha256_file heap (Some content) chunk_size
   = bind (Extract.read_raw_bytes (Some content)) (fun b => Return (ETL.sha256_bytes b))) /\
  Extract.sha256_file heap (Some content) 0 = Return (ETL.sha256_bytes EmptyString) /\
  (- 2 ^ 63 <= chunk_size < -1 ->
   Extract.sha256_file heap (Some content) chunk_size = Raise ValueError) /\
  (chunk_size < - 2 ^ 63 \/ 2 ^ 63 - 34 < chunk_size ->
   Extract.sha256_file heap (Some content) chunk_size = Raise OverflowError) /\
  (Z.of_N heap < chunk_size <= 2 ^ 63 - 34 ->
   Extract.sha256_file heap (Some content) chunk_size = Raise MemoryError) /\
  Extract.sha256_file heap None chunk_size = Raise FileNotFoundError /\
  Extract.read_raw_bytes None = Raise FileNotFoundError.
Proof.
  split; [|split; [|split; [|split; [|split; [|split; reflexivity]]]]].
  - intros Hc. unfold Extract.sha256_file.
    rewrite read_loop_all by (assumption || lia). reflexivity.
  - unfold Extract.sha256_file. cbn [Extract.read_loop].
    unfold Extract.read.
    change ((0 <? - 2 ^ 63) || (2 ^ 63 <=? 0)) with false.
    change (0 <? -1) with false. change (0 <? 0) with false.
    change (2 ^ 63 - 34 <? 0) with false.
    replace (Z.of_N heap <? 0) with false by (symmetry; apply Z.ltb_ge; lia).
    cbn [bind fst snd]. change (Z.to_nat 0) with O.
    rewrite substring_0_0. reflexivity.
  - intros Hc. unfold Extract.sha256_file. cbn [Extract.read_loop].
    unfold Extract.read.
    replace ((chunk_size <? - 2 ^ 63) || (2 ^ 63 <=? chunk_size)) with false
      by (symmetry; apply orb_false_iff; split; [apply Z.ltb_ge | apply Z.leb_gt]; lia).
    replace (chunk_size <? -1) with true by (symmetry; apply Z.ltb_lt; lia).
    reflexivity.
  - intros Hc. unfold Extract.sha256_file. cbn [Extract.read_loop].
    unfold Extract.read.
    destruct ((chunk_size <? - 2 ^ 63) || (2 ^ 63 <=? chunk_size)) eqn:E0; [reflexivity|].
    apply orb_false_iff in E0. destruct E0 as (Ea & Eb).
    apply Z.ltb_ge in Ea. apply Z.leb_gt in Eb.
    replace (chunk_size <? -1) with false by (symmetry; apply Z.ltb_ge; lia).
    replace (chunk_size <? 0) with false by (symmetry; apply Z.ltb_ge; lia).
    replace (2 ^ 63 - 34 <? chunk_size) with true by (symmetry; apply Z.ltb_lt; lia).
    reflexivity.
  - intros Hc. unfold Extract.sha256_file. cbn [Extract.read_loop].
    unfold Extract.read.
    replace ((chunk_size <? - 2 ^ 63) || (2 ^ 63 <=? chunk_size)) with false
      by (symmetry; apply orb_false_iff; split; [apply Z.ltb_ge | apply Z.leb_gt]; lia).
    replace (chunk_size <? -1) with false by (symmetry; apply Z.ltb_ge; lia).
    replace (chunk_size <? 0) with false by (symmetry; apply Z.ltb_ge; lia).
    replace (2 ^ 63 - 34 <? chunk_size) with false by (symmetry; apply Z.ltb_ge; lia).
    replace (Z.of_N heap <? chunk_size) with true by (symmetry; apply Z.ltb_lt; lia).
    reflexivity.
Qed.

Lemma sha256_file_chunks_witness :
  (0 < 2 <= Z.min (Z.of_N 1048576) (2 ^ 63 - 34) \/ 2 = -1) /\
  - 2 ^ 63 <= -5 < -1 /\
  (2 ^ 63 - 1 < - 2 ^ 63 \/ 2 ^ 63 - 34 < 2 ^ 63 - 1) /\
  Z.of_N 1048576 < 2 ^ 62 <= 2 ^ 63 - 34 /\
  Extract.sha256_file 1048576 (Some "abc") 2
  = bind (Extract.read_raw_bytes (Some "abc")) (fun b => Return (ETL.sha256_bytes b)) /\
  Extract.sha256_file 1048576 (Some "abc") (-5) = Raise ValueError /\
  Extract.sha256_file 1048576 (Some "abc") (2 ^ 63 - 1) = Raise OverflowError /\
  Extract.sha256_file 1048576 (Some "abc") (2 ^ 62) = Raise MemoryError.
Proof.
  pose proof (sha256_file_chunks 1048576 "abc") as T.
  split; [left; lia|]. split; [lia|]. split; [right; lia|]. split; [lia|].
  split; [|split; [|split]].
  - apply (proj1 (T 2)). left. lia.
  - apply (proj1 (proj2 (proj2 (T (-5))))). lia.
  - apply (proj1 (proj2 (proj2 (proj2 (T (2 ^ 63 - 1)))))). right. lia.
  - apply (proj1 (proj2 (proj2 (proj2 (proj2 (T (2 ^ 62))))))). lia.
Defined.

(** ** Column labels *)

Lemma label_char_word (c : ascii) : is_label_char c = true -> Transform.is_word c = true.
Proof.
  unfold is_label_char, Transform.is_word.
  generalize (Z.of_N (N_of_ascii c)). intros n H.
  rewrite !orb_true_iff, !andb_true_iff, ?Z.leb_le, ?Z.eqb_eq in *. lia.
Qed.

Lemma label_char_not_space (c : ascii) :
  is_label_char c = true -> Transform.is_space c = false.
Proof.
  unfold is_label_char, Transform.is_space.
  generalize (Z.of_N (N_of_ascii c)). intros n H.
  rewrite !orb_true_iff, !andb_true_iff, ?Z.leb_le, ?Z.eqb_eq in H.
  rewrite !orb_false_iff, !andb_false_iff, ?Z.leb_gt, ?Z.eqb_neq. lia.
Qed.

Lemma label_char_lower (c : ascii) :
  is_label_char c = true -> Transform.lower_char c = c.
Proof.
  unfold is_label_char, Transform.lower_char.
  generalize (Z.of_N (N_of_ascii c)). intros n H.
  rewrite !orb_true_iff, !andb_true_iff, ?Z.leb_le, ?Z.eqb_eq in H.
  replace ((65 <=? n) && (n <=? 90) || (192 <=? n) && (n <=? 222) && negb (n =? 215))
    with false; [reflexivity|].
  symmetry. rewrite !orb_false_iff, !andb_false_iff, ?Z.leb_gt. lia.
Qed.

Lemma word_lower_label (c : ascii) :
  Transform.is_word c = true -> is_label_char (Transform.lower_char c) = true.
Proof.
  intros H. destruct c as [b0 b1 b2 b3 b4 b5 b6 b7].
  destruct b0, b1, b2, b3, b4, b5, b6, b7; try discriminate H; reflexivity.
Qed.

Lemma lstrip_label (l : list ascii) :
  Forall (fun c => is_label_char c = true) l -> Transform.lstrip l = l.
Proof.
  intros H. destruct H as [|c l Hc _]; [reflexivity|].
  simpl. rewrite (label_char_not_space c Hc). reflexivity.
Qed.

Lemma underscore_runs_label (l : list ascii) :
  Forall (fun c => is_label_char c = true) l -> Transform.underscore_runs false l = l.
Proof.
  induction 1 as [|c l Hc _ IH]; [reflexivity|].
  simpl. rewrite (label_char_not_space c Hc), IH. reflexivity.
Qed.

Lemma keep_word_label (l : list ascii) :
  Forall (fun c => is_label_char c = true) l -> Transform.keep_word l = l.
Proof.
  induction 1 as [|c l Hc _ IH]; [reflexivity|].
  unfold Transform.keep_word in *. simpl. rewrite (label_char_word c Hc), IH. reflexivity.
Qed.

Lemma map_lower_label (l : list ascii) :
  Forall (fun c => is_label_char c = true) l -> map Transform.lower_char l = l.
Proof.
  induction 1 as [|c l Hc _ IH]; [reflexivity|].
  simpl. rewrite (label_char_lower c Hc), IH. reflexivity.
Qed.

Lemma normalize_label_chars (s : string) :
  Forall (fun c => is_label_char c = true)
    (list_ascii_of_string (Transform.normalize_label s)).
Proof.
  unfold Transform.normalize_label. rewrite list_ascii_of_string_of_list_ascii.
  apply Forall_map, Forall_forall. intros c Hc.
  apply filter_In in Hc. apply word_lower_label, Hc.
Qed.

(** X12. A label that [normalize_columns] has produced is made of digits,
    lowercase letters and underscores only, and normalising it again leaves
    it as it is: the function is idempotent. *)
Theorem normalize_label_idempotent (s : string) :
  Forall (fun c => is_label_char c = true)
    (list_ascii_of_string (Transform.normalize_label s)) /\
  Transform.normalize_label (Transform.normalize_label s) = Transform.normalize_label s /\
  (forall df, Transform.normalize_columns (Transform.normalize_columns df)
              = Transform.normalize_columns df).
Proof.
  assert (I : forall t, Transform.normalize_label (Transform.normalize_label t)
                        = Transform.normalize_label t).
  { intros t. pose proof (normalize_label_chars t) as H.
    set (u := Transform.normalize_label t) in *.
    unfold Transform.normalize_label at 1. unfold Transform.strip.
    rewrite (lstrip_label _ H).
    rewrite (lstrip_label (rev _)) by (apply Forall_rev, H).
    rewrite rev_involutive, (underscore_runs_label _ H), (keep_word_label _ H),
      (map_lower_label _ H).
    apply string_of_list_ascii_of_string. }
  split; [apply normalize_label_chars|]. split; [apply I|].
  intros df. unfold Transform.normalize_columns. simpl. f_equal.
  rewrite map_map. apply map_ext. intros t. apply I.
Qed.




(** ** The order of the columns *)

Lemma insert_permutation {A : Type} (ltb : A -> A -> bool) (x : A) (l : list A) :
  Permutation (Py.insert ltb x l) (x :: l).
Proof.
  induction l as [|y l IH]; simpl; [reflexivity|].
  destruct (ltb y x); [|reflexivity].
  rewrite IH. apply perm_swap.
Qed.

Lemma stable_sort_is_permutation {A : Type} (ltb : A -> A -> bool) (l : list A) :
  Permutation (Py.stable_sort ltb l) l.
Proof.
  induction l as [|x l IH]; simpl; [reflexivity|].
  rewrite insert_permutation, IH. reflexivity.
Qed.

Lemma position_spec (x : string) (l : list string) (d : string) :
  In x l -> (ETL.position x l < List.length l)%nat /\ nth (ETL.position x l) l d = x.
Proof.
  induction l as [|y l IH]; simpl; [contradiction|].
  intros H. destruct (String.eqb x y) eqn:E.
  - apply String.eqb_eq in E. subst. split; [lia | reflexivity].
  - destruct H as [->|H]; [rewrite String.eqb_refl in E; discriminate|].
    destruct (IH H) as (H1 & H2). split; [lia | exact H2].
Qed.

Lemma position_nth (j : nat) (l : list string) (d : string) :
  NoDup l -> (j < List.length l)%nat -> ETL.position (nth j l d) l = j.
Proof.
  intros Hn. revert j; induction Hn as [|y l Hy _ IH]; intros j Hj; simpl in *; [lia|].
  destruct j as [|j]; [rewrite String.eqb_refl; reflexivity|].
  destruct (String.eqb (nth j l d) y) eqn:E.
  - apply String.eqb_eq in E. exfalso. apply Hy. rewrite <- E. apply nth_In. lia.
  - rewrite IH by lia. reflexivity.
Qed.

Lemma map_nth_seq_all (l : list string) (d : string) :
  map (fun j => nth j l d) (seq 0 (List.length l)) = l.
Proof.
  apply (nth_ext _ _ d d); [rewrite length_map, length_seq; reflexivity|].
  intros i Hi. rewrite length_map, length_seq in Hi.
  rewrite (nth_indep _ d (nth 0 l d)) by (rewrite length_map, length_seq; exact Hi).
  rewrite (map_nth (fun j => nth j l d) (seq 0 (List.length l)) 0%nat i).
  rewrite seq_nth by exact Hi. reflexivity.
Qed.

Lemma selected_labels_permutation (p : list nat) (l : list string) :
  Permutation p (seq 0 (List.length l)) ->
  Permutation (map (fun j => nth j l EmptyString) p) l.
Proof.
  intros H. rewrite (Permutation_map _ H), map_nth_seq_all. reflexivity.
Qed.

(** The cell that [reindex] picks for a label is the same before and after
    the columns are rearranged. *)
Lemma pick_selected (p : list nat) (l : list string) (r : list ETL.cell) (x : string) :
  NoDup l -> Permutation p (seq 0 (List.length l)) -> In x l ->
  nth (ETL.position x (map (fun j => nth j l EmptyString) p))
      (map (fun j => nth j r ETL.NA) p) ETL.NA
  = nth (ETL.position x l) r ETL.NA.
Proof.
  intros Hn Hp Hx. set (l' := map (fun j => nth j l EmptyString) p).
  assert (Hx' : In x l').
  { apply (Permutation_in x (Permutation_sym (selected_labels_permutation p l Hp))), Hx. }
  destruct (position_spec x l' EmptyString Hx') as (Hlt & Hnth).
  set (j' := ETL.position x l') in *.
  unfold l' in Hlt. rewrite length_map in Hlt.
  assert (Hj : (nth j' p 0 < List.length l)%nat).
  { assert (Hin : In (nth j' p 0%nat) (seq 0 (List.length l)))
      by (apply (Permutation_in _ Hp), nth_In, Hlt).
    apply in_seq in Hin. lia. }
  assert (E : nth (nth j' p 0%nat) l EmptyString = x).
  { transitivity (nth j' l' EmptyString); [|exact Hnth].
    unfold l'.
    rewrite (nth_indep (map _ p) EmptyString (nth 0 l EmptyString))
      by (rewrite length_map; exact Hlt).
    rewrite (map_nth (fun j => nth j l EmptyString) p 0%nat j'). reflexivity. }
  rewrite (nth_indep (map _ p) ETL.NA (nth 0 r ETL.NA)) by (rewrite length_map; exact Hlt).
  rewrite (map_nth (fun j => nth j r ETL.NA) p 0%nat j').
  f_equal. rewrite <- E. symmetry. apply position_nth; assumption.
Qed.

(** X14. The canonical bytes do not depend on the order of the columns: for
    a frame with distinct labels, rearranging the columns, labels and cells
    together, by any permutation gives the same bytes. This holds for all
    rows and all values. *)
Theorem column_order_irrelevant (df : ETL.DataFrame) (p : list nat) :
  NoDup (ETL.columns df) ->
  Permutation p (seq 0 (List.length (ETL.columns df))) ->
  ETL.deterministic_csv_bytes (select_columns p df) = ETL.deterministic_csv_bytes df.
Proof.
  intros Hn Hp.
  pose proof (selected_labels_permutation p (ETL.columns df) Hp) as Hl.
  assert (Hn' : NoDup (map (fun j => nth j (ETL.columns df) EmptyString) p))
    by (apply (Permutation_NoDup (Permutation_sym Hl) Hn)).
  assert (R : ETL.reindex_columns (select_columns p df)
                (ETL.sorted (ETL.columns (select_columns p df)))
              = ETL.reindex_columns df (ETL.sorted (ETL.columns df))).
  { unfold ETL.reindex_columns, select_columns. cbn [ETL.columns ETL.rows].
    rewrite (proj2 (has_duplicates_NoDup _) Hn), (proj2 (has_duplicates_NoDup _) Hn').
    rewrite (sorted_permutation _ _ Hl). f_equal. f_equal.
    rewrite !map_map. apply map_ext. intros r.
    rewrite !map_map. apply map_ext_in. intros x Hx.
    apply pick_selected; [assumption | assumption |].
    apply (Permutation_in x (stable_sort_is_permutation String.ltb (ETL.columns df))), Hx. }
  unfold ETL.deterministic_csv_bytes. rewrite R. reflexivity.
Qed.

Lemma column_order_irrelevant_witness :
  NoDup ["b"; "a"] /\
  Permutation [1%nat; 0%nat] (seq 0 2) /\
  select_columns [1%nat; 0%nat] (ETL.mkdf ["b"; "a"] [[ETL.CInt 2; ETL.CStr "x"]; [ETL.CInt 1; ETL.NA]])
  = ETL.mkdf ["a"; "b"] [[ETL.CStr "x"; ETL.CInt 2]; [ETL.NA; ETL.CInt 1]] /\
  ETL.deterministic_csv_bytes
    (ETL.mkdf ["a"; "b"] [[ETL.CStr "x"; ETL.CInt 2]; [ETL.NA; ETL.CInt 1]])
  = ETL.deterministic_csv_bytes
      (ETL.mkdf ["b"; "a"] [[ETL.CInt 2; ETL.CStr "x"]; [ETL.CInt 1; ETL.NA]]).
Proof.
  assert (N : NoDup ["b"; "a"]).
  { constructor; [simpl; intros [E|[]]; discriminate|].
    constructor; [simpl; tauto | constructor]. }
  split; [exact N|]. split; [apply perm_swap|]. split; [reflexivity|].
  exact (column_order_irrelevant
           (ETL.mkdf ["b"; "a"] [[ETL.CInt 2; ETL.CStr "x"]; [ETL.CInt 1; ETL.NA]])
           [1%nat; 0%nat] N (perm_swap _ _ _)).
Defined.

(** ** The order of the keys of a payload *)

Lemma string_ltb_connex (x y : string) :
  x <> y -> String.ltb x y = false -> String.ltb y x = true.
Proof.
  intros Hne H. destruct (String.ltb y x) eqn:E; [reflexivity|].
  exfalso. apply Hne, string_ltb_total; assumption.
Qed.

Lemma insert_item_comm (a b : string * string) (acc : list (string * string)) :
  fst a <> fst b ->
  Json.insert_item a (Json.insert_item b acc) = Json.insert_item b (Json.insert_item a acc).
Proof.
  intros Hne. assert (Hne' : fst b <> fst a) by congruence.
  induction acc as [|z acc IH]; simpl.
  - destruct (String.ltb (fst a) (fst b)) eqn:Eab.
    + rewrite (string_ltb_asym _ _ Eab). reflexivity.
    + rewrite (string_ltb_connex _ _ Hne Eab). reflexivity.
  - destruct (String.ltb (fst b) (fst z)) eqn:Ebz, (String.ltb (fst a) (fst z)) eqn:Eaz;
      simpl; rewrite ?Ebz, ?Eaz.
    + destruct (String.ltb (fst a) (fst b)) eqn:Eab.
      * rewrite (string_ltb_asym _ _ Eab). reflexivity.
      * rewrite (string_ltb_connex _ _ Hne Eab). reflexivity.
    + destruct (String.ltb (fst a) (fst b)) eqn:Eab; [|reflexivity].
      rewrite (string_ltb_trans _ _ _ Eab Ebz) in Eaz. discriminate.
    + destruct (String.ltb (fst b) (fst a)) eqn:Eba; [|reflexivity].
      rewrite (string_ltb_trans _ _ _ Eba Eaz) in Ebz. discriminate.
    + rewrite IH. reflexivity.
Qed.

Lemma fold_insert_permutation (l l' : list (string * string)) :
  Permutation l l' -> NoDup (map fst l) ->
  forall acc, fold_left (fun acc it => Json.insert_item it acc) l acc
              = fold_left (fun acc it => Json.insert_item it acc) l' acc.
Proof.
  induction 1 as [|x l l' _ IH|x y l|l l' l'' H1 IH1 H2 IH2]; intros Hn acc; simpl.
  - reflexivity.
  - apply IH. inversion Hn; assumption.
  - f_equal. apply insert_item_comm.
    inversion Hn as [|? ? Hy _]; subst. intros E. apply Hy. left. exact E.
  - rewrite IH1 by exact Hn. apply IH2.
    apply (Permutation_NoDup (Permutation_map fst H1) Hn).
Qed.

Lemma dumps_dict_order (items items' : list (string * json)) :
  Permutation items items' -> NoDup (map fst items) ->
  dumps (JDict items) = dumps (JDict items').
Proof.
  intros Hp Hn. cbn [dumps]. unfold Json.sort_items.
  rewrite (fold_insert_permutation
             (map (fun it => (fst it, dumps (snd it))) items)
             (map (fun it => (fst it, dumps (snd it))) items')).
  - reflexivity.
  - apply Permutation_map, Hp.
  - rewrite map_map. simpl. exact Hn.
Qed.

(** The payload enters the hashed string through its own serialisation. *)
Lemma block_string_data (i : Z) (d d' : json) (p : string) (t : Py.float) (n : Z)
    (h h' : string) :
  dumps d = dumps d' ->
  Block.block_string (Block.mk i d p t n h) = Block.block_string (Block.mk i d' p t n h').
Proof.
  intros E. unfold Block.block_string.
  cbn [Block.index Block.data Block.previous_hash Block.timestamp Block.nonce].
  cbn [dumps map fst snd]. rewrite E. reflexivity.
Qed.

(** X15. The hash of a block does not depend on the order in which the keys
    of its payload were inserted: two blocks that agree on index, previous
    hash, timestamp and nonce and whose payloads are dicts with the same
    items, with distinct keys, in any two orders have the same recomputed
    hash. *)
Theorem calculate_hash_key_order (i : Z) (items items' : list (string * json))
    (p : string) (t : Py.float) (n : Z) (h h' : string) :
  Permutation items items' ->
  NoDup (map fst items) ->
  Block.calculate_hash (Block.mk i (JDict items') p t n h')
  = Block.calculate_hash (Block.mk i (JDict items) p t n h).
Proof.
  intros Hp Hn. unfold Block.calculate_hash. f_equal. f_equal.
  apply block_string_data. symmetry. apply dumps_dict_order; assumption.
Qed.

Lemma calculate_hash_key_order_witness :
  Permutation [("mode", JStr "union"); ("files", JInt 2)]
              [("files", JInt 2); ("mode", JStr "union")] /\
  NoDup (map fst [("mode", JStr "union"); ("files", JInt 2)]) /\
  Block.calculate_hash
    (Block.mk 1 (JDict [("files", JInt 2); ("mode", JStr "union")]) "0" Example.now1 0 "x")
  = Block.calculate_hash
      (Block.mk 1 (JDict [("mode", JStr "union"); ("files", JInt 2)]) "0" Example.now1 0 "y").
Proof.
  assert (N : NoDup (map fst [("mode", JStr "union"); ("files", JInt 2)])).
  { simpl. constructor; [simpl; intros [E|[]]; discriminate|].
    constructor; [simpl; tauto | constructor]. }
  split; [apply perm_swap|]. split; [exact N|].
  exact (calculate_hash_key_order 1 _ _ "0" Example.now1 0 "y" "x" (perm_swap _ _ _) N).
Defined.

(** ** The order of the rows *)

(** *** The order on keys *)

Lemma lex_compare_eq (a b : list Z) : ETL.lex_compare a b = Eq -> a = b.
Proof.
  revert b; induction a as [|x a IH]; intros [|y b]; simpl; try discriminate; auto.
  destruct (Z.compare x y) eqn:E; try discriminate.
  intros H. apply Z.compare_eq in E. subst. f_equal. auto.
Qed.

Lemma lex_compare_antisym (a b : list Z) :
  ETL.lex_compare b a = CompOpp (ETL.lex_compare a b).
Proof.
  revert b; induction a as [|x a IH]; intros [|y b]; simpl; auto.
  rewrite (Z.compare_antisym x y). destruct (Z.compare x y); simpl; auto.
Qed.

Lemma lex_compare_trans (a b c : list Z) :
  ETL.lex_compare a b = Lt -> ETL.lex_compare b c = Lt -> ETL.lex_compare a c = Lt.
Proof.
  revert b c; induction a as [|x a IH]; intros [|y b] [|z c]; simpl;
    try discriminate; auto.
  destruct (Z.compare x y) eqn:Exy; try discriminate;
    destruct (Z.compare y z) eqn:Eyz; try discriminate; intros H1 H2.
  - apply Z.compare_eq in Exy, Eyz. subst. rewrite Z.compare_refl. eauto.
  - apply Z.compare_eq in Exy. subst. rewrite Eyz. reflexivity.
  - apply Z.compare_eq in Eyz. subst. rewrite Exy. reflexivity.
  - rewrite Z.compare_lt_iff in Exy, Eyz.
    replace (Z.compare x z) with Lt; [reflexivity|].
    symmetry. apply Z.compare_lt_iff. lia.
Qed.

Lemma string_compare_codes (s1 s2 : string) :
  String.compare s1 s2
  = ETL.lex_compare (map (fun c => Z.of_N (N_of_ascii c)) (list_ascii_of_string s1))
                    (map (fun c => Z.of_N (N_of_ascii c)) (list_ascii_of_string s2)).
Proof.
  revert s2; induction s1 as [|a s1 IH]; intros [|b s2]; simpl; try reflexivity.
  rewrite N2Z.inj_compare. unfold Ascii.compare. rewrite IH. reflexivity.
Qed.

Lemma float_compare_key (x y : Py.float) :
  x <> S754_nan -> y <> S754_nan ->
  SFcompare x y = Some (ETL.lex_compare (float_key x) (float_key y)).
Proof.
  intros Hx Hy.
  destruct x as [sx|sx| |sx mx ex], y as [sy|sy| |sy my ey];
    try congruence; try (destruct sx); try (destruct sy); try reflexivity;
    unfold SFcompare, float_key, ETL.lex_compare.
  - rewrite Z.compare_opp, (Z.compare_antisym ex ey).
    change (Z.compare 1 1) with Eq. change (Z.compare (-1) (-1)) with Eq.
    cbv beta iota.
    change (Z.compare (Z.neg mx) (Z.neg my)) with (CompOpp (Pos.compare mx my)).
    unfold Pos.compare.
    destruct (Z.compare ex ey); simpl; try reflexivity.
    destruct (Pos.compare_cont Eq mx my); reflexivity.
  - change (Z.compare 1 1) with Eq. cbv beta iota.
    change (Z.compare (Z.pos mx) (Z.pos my)) with (Pos.compare mx my).
    unfold Pos.compare.
    destruct (Z.compare ex ey); simpl; try reflexivity.
    destruct (Pos.compare_cont Eq mx my); reflexivity.
Qed.

(** The order of the cells is the order of their keys. *)
Lemma cell_compare_key (a b : ETL.cell) :
  ETL.cell_compare a b = ETL.lex_compare (cell_key a) (cell_key b).
Proof.
  destruct a as [|ba|za|xa|sa|ta], b as [|bb|zb|xb|sb|tb];
    try reflexivity;
    try (destruct xa; reflexivity);
    try (destruct xb; reflexivity).
  - destruct ba, bb; reflexivity.
  - unfold ETL.cell_compare, cell_key. simpl.
    destruct (Z.compare za zb); reflexivity.
  - assert (D : forall x : Py.float, x = S754_nan \/ x <> S754_nan)
      by (intros [s|s| |s m e]; (left; reflexivity) || (right; discriminate)).
    destruct (D xa) as [->|Ha]; [destruct xb; reflexivity|].
    destruct (D xb) as [->|Hb]; [destruct xa; reflexivity|].
    unfold ETL.cell_compare, cell_key.
    replace (ETL.is_na (ETL.CFloat xa)) with false by (destruct xa; simpl; congruence).
    replace (ETL.is_na (ETL.CFloat xb)) with false by (destruct xb; simpl; congruence).
    rewrite (float_compare_key xa xb Ha Hb). reflexivity.
  - unfold ETL.cell_compare, cell_key. simpl. apply string_compare_codes.
Qed.

Lemma cell_compare_antisym (a b : ETL.cell) :
  ETL.cell_compare b a = CompOpp (ETL.cell_compare a b).
Proof. rewrite !cell_compare_key. apply lex_compare_antisym. Qed.

Lemma cell_compare_trans (a b c : ETL.cell) :
  ETL.cell_compare a b = Lt -> ETL.cell_compare b c = Lt -> ETL.cell_compare a c = Lt.
Proof. rewrite !cell_compare_key. apply lex_compare_trans. Qed.

Lemma cell_compare_eq_l (a b c : ETL.cell) :
  ETL.cell_compare a b = Eq -> ETL.cell_compare a c = ETL.cell_compare b c.
Proof.
  rewrite !cell_compare_key. intros H. rewrite (lex_compare_eq _ _ H). reflexivity.
Qed.

Lemma cell_compare_eq_r (a b c : ETL.cell) :
  ETL.cell_compare b c = Eq -> ETL.cell_compare a c = ETL.cell_compare a b.
Proof.
  rewrite !cell_compare_key. intros H. rewrite (lex_compare_eq _ _ H). reflexivity.
Qed.

(** *** The order on rows *)

Lemma row_compare_antisym (r1 r2 : list ETL.cell) :
  ETL.row_compare r2 r1 = CompOpp (ETL.row_compare r1 r2).
Proof.
  revert r2; induction r1 as [|a r1 IH]; intros [|b r2]; simpl; auto.
  rewrite (cell_compare_antisym a b). destruct (ETL.cell_compare a b); simpl; auto.
Qed.

Lemma row_compare_trans (r1 r2 r3 : list ETL.cell) :
  ETL.row_compare r1 r2 = Lt -> ETL.row_compare r2 r3 = Lt -> ETL.row_compare r1 r3 = Lt.
Proof.
  revert r2 r3; induction r1 as [|a r1 IH]; intros [|b r2] [|c r3]; simpl;
    try discriminate; auto.
  destruct (ETL.cell_compare a b) eqn:Eab; try discriminate;
    destruct (ETL.cell_compare b c) eqn:Ebc; try discriminate; intros H1 H2.
  - rewrite (cell_compare_eq_l _ _ _ Eab), Ebc. eauto.
  - rewrite (cell_compare_eq_l _ _ _ Eab), Ebc. reflexivity.
  - rewrite (cell_compare_eq_r _ _ _ Ebc), Eab. reflexivity.
  - rewrite (cell_compare_trans _ _ _ Eab Ebc). reflexivity.
Qed.

Lemma row_ltb_asym (x y : list ETL.cell) :
  ETL.row_ltb x y = true -> ETL.row_ltb y x = false.
Proof.
  unfold ETL.row_ltb. rewrite (row_compare_antisym x y).
  destruct (ETL.row_compare x y); simpl; congruence.
Qed.

Lemma row_ltb_trans (x y z : list ETL.cell) :
  ETL.row_ltb x y = true -> ETL.row_ltb y z = true -> ETL.row_ltb x z = true.
Proof.
  unfold ETL.row_ltb.
  destruct (ETL.row_compare x y) eqn:E1; try discriminate.
  destruct (ETL.row_compare y z) eqn:E2; try discriminate.
  rewrite (row_compare_trans _ _ _ E1 E2). reflexivity.
Qed.

Lemma row_ltb_tie (x y : list ETL.cell) :
  ETL.row_ltb x y = false -> ETL.row_ltb y x = false -> ETL.row_compare x y = Eq.
Proof.
  unfold ETL.row_ltb. rewrite (row_compare_antisym x y).
  destruct (ETL.row_compare x y); simpl; congruence.
Qed.

(** Rows picked from two rows at the same positions tie only when the
    picked cells tie one by one. *)
Lemma row_compare_picks {X : Type} (g g' : X -> ETL.cell) (l : list X) :
  ETL.row_compare (map g l) (map g' l) = Eq ->
  forall x, In x l -> ETL.cell_compare (g x) (g' x) = Eq.
Proof.
  induction l as [|y l IH]; simpl; [contradiction|].
  destruct (ETL.cell_compare (g y) (g' y)) eqn:E; try discriminate.
  intros H x [<-|Hx]; [exact E | apply IH; assumption].
Qed.

(** *** The stable sort of a list without ties *)

Section SortWithoutTies.

Context {A : Type} (ltb : A -> A -> bool).
Hypothesis asym : forall x y, ltb x y = true -> ltb y x = false.
Hypothesis trans : forall x y z, ltb x y = true -> ltb y z = true -> ltb x z = true.

Lemma insert_insert_untied (x y : A) (l : list A) :
  (ltb x y = false -> ltb y x = false -> x = y) ->
  Py.insert ltb x (Py.insert ltb y l) = Py.insert ltb y (Py.insert ltb x l).
Proof.
  intros total.
  induction l as [|z l IH]; simpl.
  - destruct (ltb y x) eqn:Eyx, (ltb x y) eqn:Exy; try reflexivity.
    + rewrite (asym _ _ Eyx) in Exy. discriminate.
    + rewrite (total eq_refl eq_refl). reflexivity.
  - destruct (ltb z y) eqn:Ezy, (ltb z x) eqn:Ezx; simpl; rewrite ?Ezy, ?Ezx.
    + rewrite IH. reflexivity.
    + destruct (ltb x y) eqn:Exy; [simpl; rewrite ?Ezy; reflexivity|].
      destruct (ltb y x) eqn:Eyx.
      * rewrite (trans _ _ _ Ezy Eyx) in Ezx. discriminate.
      * rewrite (total eq_refl eq_refl) in Ezx. congruence.
    + destruct (ltb y x) eqn:Eyx; [simpl; rewrite ?Ezx; reflexivity|].
      destruct (ltb x y) eqn:Exy.
      * rewrite (trans _ _ _ Ezx Exy) in Ezy. discriminate.
      * rewrite (total eq_refl eq_refl) in Ezx. congruence.
    + destruct (ltb y x) eqn:Eyx, (ltb x y) eqn:Exy; simpl; rewrite ?Ezy, ?Ezx;
        try reflexivity.
      * rewrite (asym _ _ Eyx) in Exy. discriminate.
      * rewrite (total eq_refl eq_refl). reflexivity.
Qed.

Lemma stable_sort_untied (l l' : list A) :
  Permutation l l' ->
  (forall x y, In x l -> In y l -> ltb x y = false -> ltb y x = false -> x = y) ->
  Py.stable_sort ltb l = Py.stable_sort ltb l'.
Proof.
  induction 1 as [|a l l' Hp IH|a b l|l l' l'' H1 IH1 H2 IH2]; intros T; simpl.
  - reflexivity.
  - rewrite IH; [reflexivity|]. intros x y Hx Hy. apply T; right; assumption.
  - apply insert_insert_untied. apply T; simpl; auto.
  - rewrite IH1 by exact T. apply IH2.
    intros x y Hx Hy. apply T; apply (Permutation_in _ (Permutation_sym H1)); assumption.
Qed.

End SortWithoutTies.

Lemma map_constant {X Y : Type} (g : X -> Y) (c : Y) (l l' : list X) :
  (forall x, g x = c) -> List.length l = List.length l' -> map g l = map g l'.
Proof.
  intros Hg. revert l'; induction l as [|x l IH]; intros [|x' l'] H; simpl in *;
    try discriminate; [reflexivity|].
  rewrite !Hg. f_equal. apply IH. congruence.
Qed.

(** X16. The canonical bytes do not depend on the order of the rows of a
    frame of the model (every column of one dtype) in which no two different
    rows compare equal in every column: any rearrangement of the rows gives
    the same bytes (and the same refusal when a label occurs twice). *)
Theorem row_order_irrelevant (df : ETL.DataFrame) (rows' : list (list ETL.cell)) :
  ETL.typed df = true ->
  no_ties df ->
  Permutation (ETL.rows df) rows' ->
  ETL.deterministic_csv_bytes (ETL.mkdf (ETL.columns df) rows')
  = ETL.deterministic_csv_bytes df.
Proof.
  intros _ Ht Hp. destruct df as [cols rows]. cbn [ETL.columns ETL.rows] in *.
  unfold ETL.deterministic_csv_bytes, ETL.reindex_columns. cbn [ETL.columns ETL.rows].
  destruct (ETL.has_duplicates cols) eqn:Hd; [reflexivity|].
  apply has_duplicates_NoDup in Hd.
  set (f := fun r : list ETL.cell =>
              map (fun j => nth j r ETL.NA)
                  (map (fun x => ETL.position x cols) (ETL.sorted cols))).
  destruct (ETL.sorted cols) as [|c0 labels] eqn:El.
  - rewrite (map_constant f [] rows' rows); [reflexivity | reflexivity |].
    symmetry. apply Permutation_length, Hp.
  - unfold ETL.sort_values, ETL.sort_rows. cbn [ETL.columns ETL.rows].
    rewrite (stable_sort_untied ETL.row_ltb row_ltb_asym row_ltb_trans
               (map f rows) (map f rows')); [reflexivity | apply Permutation_map, Hp |].
    intros x y Hx Hy Exy Eyx.
    apply in_map_iff in Hx. destruct Hx as (r1 & <- & H1).
    apply in_map_iff in Hy. destruct Hy as (r2 & <- & H2).
    rewrite (Ht r1 r2 H1 H2); [reflexivity|].
    intros j Hj. unfold no_ties in Ht. cbn [ETL.columns] in Hj.
    pose proof (row_ltb_tie _ _ Exy Eyx) as Hq. unfold f in Hq.
    rewrite !map_map in Hq.
    pose proof (row_compare_picks _ _ _ Hq (nth j cols EmptyString)) as Hc.
    cbv beta in Hc. rewrite (position_nth j cols EmptyString Hd Hj) in Hc.
    apply Hc. rewrite <- El.
    apply (Permutation_in _ (Permutation_sym (stable_sort_is_permutation String.ltb cols))).
    apply nth_In, Hj.
Qed.

Lemma row_order_irrelevant_witness :
  ETL.typed (ETL.mkdf ["b"; "a"] [[ETL.CInt 2; ETL.CStr "x"]; [ETL.CInt 1; ETL.NA]]) = true /\
  no_ties (ETL.mkdf ["b"; "a"] [[ETL.CInt 2; ETL.CStr "x"]; [ETL.CInt 1; ETL.NA]]) /\
  Permutation [[ETL.CInt 2; ETL.CStr "x"]; [ETL.CInt 1; ETL.NA]]
              [[ETL.CInt 1; ETL.NA]; [ETL.CInt 2; ETL.CStr "x"]] /\
  ETL.deterministic_csv_bytes
    (ETL.mkdf ["b"; "a"] [[ETL.CInt 1; ETL.NA]; [ETL.CInt 2; ETL.CStr "x"]])
  = ETL.deterministic_csv_bytes
      (ETL.mkdf ["b"; "a"] [[ETL.CInt 2; ETL.CStr "x"]; [ETL.CInt 1; ETL.NA]]).
Proof.
  assert (T : no_ties (ETL.mkdf ["b"; "a"] [[ETL.CInt 2; ETL.CStr "x"]; [ETL.CInt 1; ETL.NA]])).
  { intros r1 r2 H1 H2 H. simpl in H1, H2.
    destruct H1 as [<-|[<-|[]]], H2 as [<-|[<-|[]]]; try reflexivity;
      specialize (H 0%nat ltac:(simpl; lia)); discriminate. }
  split; [reflexivity|]. split; [exact T|]. split; [apply perm_swap|].
  exact (row_order_irrelevant
           (ETL.mkdf ["b"; "a"] [[ETL.CInt 2; ETL.CStr "x"]; [ETL.CInt 1; ETL.NA]])
           _ eq_refl T (perm_swap _ _ _)).
Defined.
